(** * Payment access layer: dispute repository and transfer resource API

    A shallow embedding of
    - [app/payin/repository/dispute_repo.py]: the dispute repository, whose
      methods each build one SQL statement and run it on the replica or on
      the master connection of the main database;
    - [app/payout/api/transfer/v0/models.py] and
      [app/payout/api/transfer/v0/api.py]: the v0 wire models and the route
      handlers that forward to the transfer repository.

    Python [int] is [Z]; a [datetime] is an instant on the time line, also
    [Z]; [Optional[t]] is [option t]; a [dict] with string keys is a
    [gmap string _]. *)

From Stdlib Require Import ZArith List Bool Ascii.
From stdpp Require Import gmap strings list fin_maps.
Import ListNotations.
Local Open Scope Z_scope.
Local Open Scope string_scope.
Local Open Scope list_scope.

Definition datetime := Z.

(** Python values that cross the boundary to the store or sit in a model's
    field: [None], an [int], a [str], a [datetime]. *)
Inductive value :=
| VNone
| VInt (n : Z)
| VStr (s : string)
| VDatetime (t : datetime).

Definition value_eq_dec (a b : value) : {a = b} + {a <> b}.
Proof. repeat decide equality. Defined.

#[global] Instance value_eq_decision : EqDecision value := value_eq_dec.

(* ================================================================= *)
(** * The dispute repository *)

Module Dispute.

(** ** The [stripe_disputes] table *)

(** The columns; the entity's docstring states that the entity's variable
    names are the table's column names. *)
Module stripe_disputes.
Inductive column :=
  | id | stripe_dispute_id | disputed_at | amount | fee | net | currency
  | charged_at | reason | status | evidence_due_by | evidence_submitted_at
  | updated_at | stripe_card_id | stripe_charge_id.

Definition column_eq_dec (a b : column) : {a = b} + {a <> b}.
Proof. decide equality. Defined.

  (** The type of a cell, read off the entity's annotations. *)
Definition coltype (c : column) : Type :=
    match c with
    | id => option Z
    | stripe_dispute_id => string
    | disputed_at => datetime
    | amount | fee | net => Z
    | currency => option string
    | charged_at => datetime
    | reason | status => string
    | evidence_due_by => datetime
    | evidence_submitted_at | updated_at => option datetime
    | stripe_card_id | stripe_charge_id => Z
    end.

Definition columns : list column :=
    [id; stripe_dispute_id; disputed_at; amount; fee; net; currency;
     charged_at; reason; status; evidence_due_by; evidence_submitted_at;
     updated_at; stripe_card_id; stripe_charge_id].
End stripe_disputes.
Import stripe_disputes(column, coltype).

(** A row gives every column a cell of its type. *)
Definition Row := forall c : column, coltype c.
Definition Table := list Row.

(** ** Entities and request models *)

Module StripeDisputeDbEntity.
Record t := make {
    id : option Z;
    stripe_dispute_id : string;
    disputed_at : datetime;
    amount : Z;
    fee : Z;
    net : Z;
    currency : option string;
    charged_at : datetime;
    reason : string;
    status : string;
    evidence_due_by : datetime;
    evidence_submitted_at : option datetime;
    updated_at : option datetime;
    stripe_card_id : Z;
    stripe_charge_id : Z
  }.

  (** [DBEntity.from_row]: the entity is built from the row's cells by
      column name. *)
Definition from_row (row : Row) : t :=
    {| id := row stripe_disputes.id;
       stripe_dispute_id := row stripe_disputes.stripe_dispute_id;
       disputed_at := row stripe_disputes.disputed_at;
       amount := row stripe_disputes.amount;
       fee := row stripe_disputes.fee;
       net := row stripe_disputes.net;
       currency := row stripe_disputes.currency;
       charged_at := row stripe_disputes.charged_at;
       reason := row stripe_disputes.reason;
       status := row stripe_disputes.status;
       evidence_due_by := row stripe_disputes.evidence_due_by;
       evidence_submitted_at := row stripe_disputes.evidence_submitted_at;
       updated_at := row stripe_disputes.updated_at;
       stripe_card_id := row stripe_disputes.stripe_card_id;
       stripe_charge_id := row stripe_disputes.stripe_charge_id |}.

  (** The row that holds an entity, cell by cell. *)
Definition to_row (e : t) : Row :=
    fun c =>
      match c return coltype c with
      | stripe_disputes.id => id e
      | stripe_disputes.stripe_dispute_id => stripe_dispute_id e
      | stripe_disputes.disputed_at => disputed_at e
      | stripe_disputes.amount => amount e
      | stripe_disputes.fee => fee e
      | stripe_disputes.net => net e
      | stripe_disputes.currency => currency e
      | stripe_disputes.charged_at => charged_at e
      | stripe_disputes.reason => reason e
      | stripe_disputes.status => status e
      | stripe_disputes.evidence_due_by => evidence_due_by e
      | stripe_disputes.evidence_submitted_at => evidence_submitted_at e
      | stripe_disputes.updated_at => updated_at e
      | stripe_disputes.stripe_card_id => stripe_card_id e
      | stripe_disputes.stripe_charge_id => stripe_charge_id e
      end.
End StripeDisputeDbEntity.

(** Modelled from the spec: the domain model [StripeDispute]
    ([app.payin.core.dispute.model]) is not among the sources; its fields
    are the fifteen keyword arguments [to_stripe_dispute] passes, with the
    types of section 3 of the specification. *)
Module StripeDispute.
Record t := make {
    id : option Z;
    stripe_dispute_id : string;
    disputed_at : datetime;
    amount : Z;
    fee : Z;
    net : Z;
    currency : option string;
    charged_at : datetime;
    reason : string;
    status : string;
    evidence_due_by : datetime;
    evidence_submitted_at : option datetime;
    updated_at : option datetime;
    stripe_card_id : Z;
    stripe_charge_id : Z
  }.
End StripeDispute.

Definition to_stripe_dispute (self : StripeDisputeDbEntity.t) : StripeDispute.t :=
  StripeDispute.make
    (StripeDisputeDbEntity.id self)
    (StripeDisputeDbEntity.stripe_dispute_id self)
    (StripeDisputeDbEntity.disputed_at self)
    (StripeDisputeDbEntity.amount self)
    (StripeDisputeDbEntity.fee self)
    (StripeDisputeDbEntity.net self)
    (StripeDisputeDbEntity.currency self)
    (StripeDisputeDbEntity.charged_at self)
    (StripeDisputeDbEntity.reason self)
    (StripeDisputeDbEntity.status self)
    (StripeDisputeDbEntity.evidence_due_by self)
    (StripeDisputeDbEntity.evidence_submitted_at self)
    (StripeDisputeDbEntity.updated_at self)
    (StripeDisputeDbEntity.stripe_card_id self)
    (StripeDisputeDbEntity.stripe_charge_id self).

(** Modelled from the spec: the enumeration [DisputeIdType]
    ([app.payin.core.dispute.types]) is not among the sources; the source
    names its member [STRIPE_DISPUTE_ID]. The two kinds of object the
    source's [is] test meets: a plain [str] object, and a member of the
    enumeration, an object of its own, told apart from the other members by
    its name. *)
Inductive pyobject :=
| str_object (s : string)
| enum_member (name : string).

Definition STRIPE_DISPUTE_ID : pyobject := enum_member "STRIPE_DISPUTE_ID".

(** [a is m], object identity, for a member [m] of an enumeration: only
    that member itself is identical to it; a plain string is not, whatever
    its text. *)
Definition is_ (a m : pyobject) : bool :=
  match a, m with
  | enum_member x, enum_member y => String.eqb x y
  | _, _ => false
  end.

(** [dispute_id_type] is declared [Optional[str]] on a validated request
    model: whatever the caller passes for it, a member of [DisputeIdType]
    included, the model holds [None] or a plain string. *)
Module GetStripeDisputeByIdInput.
Record t := make {
    stripe_dispute_id : string;
    dispute_id_type : option string
  }.
End GetStripeDisputeByIdInput.

Module GetAllStripeDisputesByPayerIdInput.
Record t := make { stripe_card_ids : list Z }.
End GetAllStripeDisputesByPayerIdInput.

Module GetAllStripeDisputesByPaymentMethodIdInput.
Record t := make { stripe_card_id : Z }.
End GetAllStripeDisputesByPaymentMethodIdInput.

Module UpdateStripeDisputeWhereInput.
Record t := make { id : string }.
End UpdateStripeDisputeWhereInput.

Module UpdateStripeDisputeSetInput.
Record t := make {
    evidence_submitted_at : datetime;
    updated_at : datetime
  }.
End UpdateStripeDisputeSetInput.

Module GetCumulativeAmountInput.
Record t := make {
    card_ids : list Z;
    start_time : datetime;
    reasons : list string
  }.
End GetCumulativeAmountInput.

Module GetCumulativeCountInput.
Record t := make {
    stripe_card_id : Z;
    reasons : list string;
    start_time : datetime
  }.
End GetCumulativeCountInput.

(** ** Statements and their execution by the store *)

(** A call to the store returns, or raises the store's [DataError]. *)
Inductive result (A : Type) :=
| Ok (a : A)
| DataError.
Arguments Ok {A} a.
Arguments DataError {A}.

Section Store.

Definition of_option {A} (f : A -> value) (o : option A) : value :=
  match o with Some a => f a | None => VNone end.

(** The cell of a row as the store compares it; SQL NULL is [VNone]. *)
Definition cell (c : column) (row : Row) : value :=
  match c return coltype c -> value with
  | stripe_disputes.id => of_option VInt
  | stripe_disputes.stripe_dispute_id => VStr
  | stripe_disputes.disputed_at => VDatetime
  | stripe_disputes.amount => VInt
  | stripe_disputes.fee => VInt
  | stripe_disputes.net => VInt
  | stripe_disputes.currency => of_option VStr
  | stripe_disputes.charged_at => VDatetime
  | stripe_disputes.reason => VStr
  | stripe_disputes.status => VStr
  | stripe_disputes.evidence_due_by => VDatetime
  | stripe_disputes.evidence_submitted_at => of_option VDatetime
  | stripe_disputes.updated_at => of_option VDatetime
  | stripe_disputes.stripe_card_id => VInt
  | stripe_disputes.stripe_charge_id => VInt
  end (row c).

(** [a = b] in a WHERE clause. A comparison with NULL is unknown, which
    selects no row. *)
Definition sql_eq (a b : value) : bool :=
  match a, b with
  | VInt x, VInt y => Z.eqb x y
  | VStr x, VStr y => String.eqb x y
  | VDatetime x, VDatetime y => Z.eqb x y
  | _, _ => false
  end.

(** [a > b] in a WHERE clause. *)
Definition sql_gt (a b : value) : bool :=
  match a, b with
  | VInt x, VInt y => Z.ltb y x
  | VDatetime x, VDatetime y => Z.ltb y x
  | _, _ => false
  end.

(** The expressions the repository builds: [col == v], [col.in_(vs)],
    [col > v] and [and_(...)]. *)
#[local] Set Warnings "-register-all".
Inductive clause :=
| eq (c : column) (v : value)
| in_ (c : column) (vs : list value)
| gt (c : column) (v : value)
| and_ (clauses : list clause).

Fixpoint holds (w : clause) (row : Row) : bool :=
  match w with
  | eq c v => sql_eq (cell c row) v
  | in_ c vs => existsb (sql_eq (cell c row)) vs
  | gt c v => sql_gt (cell c row) v
  | and_ clauses => forallb (fun w' => holds w' row) clauses
  end.

(** One entry of the dictionary given to [.values(...)]: a column and its
    new cell. *)
Inductive assignment := Assign (c : column) (v : coltype c).

Definition set_col (c : column) (v : coltype c) (row : Row) : Row :=
  fun c' =>
    match stripe_disputes.column_eq_dec c c' with
    | left e => eq_rect c coltype v c' e
    | right _ => row c'
    end.

Definition assign (row : Row) (a : assignment) : Row :=
  match a with Assign c v => set_col c v row end.

Definition apply_values (vs : list assignment) (row : Row) : Row :=
  fold_left assign vs row.

(** [table.select().where(w)] and
    [table.update().where(w).values(vs).returning(...)] over all columns. *)
Inductive statement :=
| select_where (w : clause)
| update_where_values_returning (w : clause) (vs : list assignment).

(** Running a statement on a table: the rows it returns, in table order,
    and the table afterwards. *)
Definition execute (stmt : statement) (t : Table) : list Row * Table :=
  match stmt with
  | select_where w => (List.filter (holds w) t, t)
  | update_where_values_returning w vs =>
      (List.map (apply_values vs) (List.filter (holds w) t),
       List.map (fun row => if holds w row then apply_values vs row else row) t)
  end.

(** *** Binding the parameters

    Before a statement runs, each parameter is bound to the type of the
    column it is compared with. A text bound to an integer column is read
    as a decimal integer; a text that is no integer, and any other
    parameter of another type than its column, is the store's
    [DataError]. *)

Inductive sqltype := Integer | Text | Timestamp.

Definition column_type (c : column) : sqltype :=
  match c with
  | stripe_disputes.id | stripe_disputes.amount | stripe_disputes.fee
  | stripe_disputes.net | stripe_disputes.stripe_card_id
  | stripe_disputes.stripe_charge_id => Integer
  | stripe_disputes.stripe_dispute_id | stripe_disputes.currency
  | stripe_disputes.reason | stripe_disputes.status => Text
  | stripe_disputes.disputed_at | stripe_disputes.charged_at
  | stripe_disputes.evidence_due_by | stripe_disputes.evidence_submitted_at
  | stripe_disputes.updated_at => Timestamp
  end.

Definition digit_of (a : ascii) : option Z :=
  let n := Z.of_N (N_of_ascii a) in
  if Z.leb 48 n && Z.leb n 57 then Some (n - 48) else None.

Fixpoint read_digits (s : string) (acc : Z) : option Z :=
  match s with
  | EmptyString => Some acc
  | String a s' =>
      match digit_of a with
      | Some d => read_digits s' (10 * acc + d)
      | None => None
      end
  end.

(** A decimal integer: an optional sign and one or more digits. *)
Definition read_int (s : string) : option Z :=
  match s with
  | EmptyString => None
  | String a s' =>
      match s' with
      | EmptyString => read_digits s 0
      | String _ _ =>
          if Ascii.eqb a "-" then option_map Z.opp (read_digits s' 0)
          else if Ascii.eqb a "+" then read_digits s' 0
          else read_digits s 0
      end
  end.

Definition bind_param (c : column) (v : value) : result value :=
  match v, column_type c with
  | VNone, _ => Ok VNone
  | VInt _, Integer | VStr _, Text | VDatetime _, Timestamp => Ok v
  | VStr s, Integer =>
      match read_int s with
      | Some n => Ok (VInt n)
      | None => DataError
      end
  | _, _ => DataError
  end.

Fixpoint bind_params (c : column) (vs : list value) : result (list value) :=
  match vs with
  | [] => Ok []
  | v :: vs' =>
      match bind_param c v, bind_params c vs' with
      | Ok v', Ok vs'' => Ok (v' :: vs'')
      | _, _ => DataError
      end
  end.

Fixpoint bind_clause (w : clause) : result clause :=
  match w with
  | eq c v =>
      match bind_param c v with Ok v' => Ok (eq c v') | DataError => DataError end
  | in_ c vs =>
      match bind_params c vs with Ok vs' => Ok (in_ c vs') | DataError => DataError end
  | gt c v =>
      match bind_param c v with Ok v' => Ok (gt c v') | DataError => DataError end
  | and_ clauses =>
      match (fix bind_all (ws : list clause) : result (list clause) :=
               match ws with
               | [] => Ok []
               | w' :: ws' =>
                   match bind_clause w', bind_all ws' with
                   | Ok b, Ok bs => Ok (b :: bs)
                   | _, _ => DataError
                   end
               end) clauses with
      | Ok clauses' => Ok (and_ clauses')
      | DataError => DataError
      end
  end.

(** The values of an update are typed by their columns already. *)
Definition bind_statement (stmt : statement) : result statement :=
  match stmt with
  | select_where w =>
      match bind_clause w with
      | Ok w' => Ok (select_where w')
      | DataError => DataError
      end
  | update_where_values_returning w vs =>
      match bind_clause w with
      | Ok w' => Ok (update_where_values_returning w' vs)
      | DataError => DataError
      end
  end.

(** The main database has two connection targets, each with its own view
    of the table; replication between them is outside this layer. *)
Record Database := { master_rows : Table; replica_rows : Table }.

Inductive connection := master | replica.

(** A repository method acts on the database and returns, or lets the
    store's exception through. *)
Definition DB (A : Type) := Database -> result A * Database.
Definition ret {A} (a : A) : DB A := fun db => (Ok a, db).
Definition bind {A B} (m : DB A) (k : A -> DB B) : DB B :=
  fun db =>
    let '(r, db') := m db in
    match r with
    | Ok a => k a db'
    | DataError => (DataError, db')
    end.
Notation "'let*' x := m 'in' k" := (bind m (fun x => k))
  (at level 10, x name, m at level 100, k at level 200).

Definition fetch_all (conn : connection) (stmt : statement) : DB (list Row) :=
  fun db =>
    match bind_statement stmt with
    | DataError => (DataError, db)
    | Ok bound =>
        match conn with
        | master =>
            let '(rows, t) := execute bound (master_rows db) in
            (Ok rows, {| master_rows := t; replica_rows := replica_rows db |})
        | replica =>
            let '(rows, t) := execute bound (replica_rows db) in
            (Ok rows, {| master_rows := master_rows db; replica_rows := t |})
        end
    end.

(** [fetch_one]: the first returned row, or [None]. *)
Definition fetch_one (conn : connection) (stmt : statement) : DB (option Row) :=
  let* rows := fetch_all conn stmt in
  ret (head rows).

(** ** [DisputeRepository] *)

Definition UpdateStripeDisputeSetInput_dict (request_set : UpdateStripeDisputeSetInput.t)
  : list assignment :=
  [Assign stripe_disputes.evidence_submitted_at
     (Some (UpdateStripeDisputeSetInput.evidence_submitted_at request_set));
   Assign stripe_disputes.updated_at
     (Some (UpdateStripeDisputeSetInput.updated_at request_set))].

(** The row a matched row becomes under the values of [request_set]. *)
Definition updated (request_set : UpdateStripeDisputeSetInput.t) (row : Row) : Row :=
  apply_values (UpdateStripeDisputeSetInput_dict request_set) row.

Definition get_dispute_by_dispute_id (dispute_input : GetStripeDisputeByIdInput.t)
  : DB (option StripeDisputeDbEntity.t) :=
  let stmt :=
    if match GetStripeDisputeByIdInput.dispute_id_type dispute_input with
       | None => true
       | Some ty => is_ (str_object ty) STRIPE_DISPUTE_ID
       end
    then select_where
           (eq stripe_disputes.stripe_dispute_id
               (VStr (GetStripeDisputeByIdInput.stripe_dispute_id dispute_input)))
    else select_where
           (eq stripe_disputes.id
               (VStr (GetStripeDisputeByIdInput.stripe_dispute_id dispute_input)))
  in
  let* row := fetch_one replica stmt in
  ret (match row with
       | Some row => Some (StripeDisputeDbEntity.from_row row)
       | None => None
       end).

Definition update_dispute_details
    (request_set : UpdateStripeDisputeSetInput.t)
    (request_where : UpdateStripeDisputeWhereInput.t)
  : DB (option StripeDisputeDbEntity.t) :=
  let stmt :=
    update_where_values_returning
      (eq stripe_disputes.stripe_dispute_id
          (VStr (UpdateStripeDisputeWhereInput.id request_where)))
      (UpdateStripeDisputeSetInput_dict request_set)
  in
  let* row := fetch_one master stmt in
  ret (match row with
       | Some row => Some (StripeDisputeDbEntity.from_row row)
       | None => None
       end).

Definition list_disputes_by_payer_id (input : GetAllStripeDisputesByPayerIdInput.t)
  : DB (list StripeDisputeDbEntity.t) :=
  let stmt :=
    select_where
      (in_ stripe_disputes.stripe_card_id
           (List.map VInt (GetAllStripeDisputesByPayerIdInput.stripe_card_ids input)))
  in
  let* rows := fetch_all replica stmt in
  let dispute_db_entities := List.map StripeDisputeDbEntity.from_row rows in
  ret dispute_db_entities.

Definition list_disputes_by_payment_method_id
    (input : GetAllStripeDisputesByPaymentMethodIdInput.t)
  : DB (list StripeDisputeDbEntity.t) :=
  let stmt :=
    select_where
      (eq stripe_disputes.stripe_card_id
          (VInt (GetAllStripeDisputesByPaymentMethodIdInput.stripe_card_id input)))
  in
  let* rows := fetch_all replica stmt in
  let dispute_db_entities := List.map StripeDisputeDbEntity.from_row rows in
  ret dispute_db_entities.

Definition get_disputes_by_dd_consumer_id
    (cumulative_amount_input : GetCumulativeAmountInput.t)
  : DB (list StripeDisputeDbEntity.t) :=
  let stmt :=
    select_where
      (and_
         [in_ stripe_disputes.stripe_card_id
              (List.map VInt (GetCumulativeAmountInput.card_ids cumulative_amount_input));
          in_ stripe_disputes.reason
              (List.map VStr (GetCumulativeAmountInput.reasons cumulative_amount_input));
          gt stripe_disputes.disputed_at
             (VDatetime (GetCumulativeAmountInput.start_time cumulative_amount_input))])
  in
  let* stripe_dispute_rows := fetch_all replica stmt in
  let stripe_dispute_entities :=
    List.map StripeDisputeDbEntity.from_row stripe_dispute_rows in
  ret stripe_dispute_entities.

Definition get_disputes_by_dd_stripe_card_id
    (cumulative_count_input : GetCumulativeCountInput.t)
  : DB (list StripeDisputeDbEntity.t) :=
  let stmt :=
    select_where
      (and_
         [eq stripe_disputes.stripe_card_id
             (VInt (GetCumulativeCountInput.stripe_card_id cumulative_count_input));
          in_ stripe_disputes.reason
              (List.map VStr (GetCumulativeCountInput.reasons cumulative_count_input));
          gt stripe_disputes.disputed_at
             (VDatetime (GetCumulativeCountInput.start_time cumulative_count_input))])
  in
  let* rows := fetch_all replica stmt in
  let stripe_dispute_entities := List.map StripeDisputeDbEntity.from_row rows in
  ret stripe_dispute_entities.

End Store.
End Dispute.

(* ================================================================= *)
(** * The v0 transfer API *)

Module Payout.

(** ** Models with field presence

    The wire models and the repository's models are pydantic models. An
    instance holds a value for every field and, apart from them, the set of
    fields that were passed to its constructor. *)

Inductive ftype := TInt | TStr | TDatetime.

(** A field annotated [t] is required; a field annotated [Optional[t]]
    with no default is not required and defaults to [None]. *)
Record field := Field { name : string; type_ : ftype; optional : bool }.

Definition schema := list field.

Definition names (sch : schema) : list string := List.map name sch.

Record Model := { values : gmap string value; fields_set : gset string }.

Definition has_type (ty : ftype) (v : value) : bool :=
  match ty, v with
  | TInt, VInt _ | TStr, VStr _ | TDatetime, VDatetime _ => true
  | _, _ => false
  end.

(** Validation of one passed value: [None] passes for an [Optional]
    field, a value of the field's type passes as it is. Values of another
    type, which pydantic would try to coerce, are rejected here; the routes
    only pass on values that were validated before. *)
Definition validate_field (f : field) (v : value) : option value :=
  match v with
  | VNone => if optional f then Some VNone else None
  | _ => if has_type (type_ f) v then Some v else None
  end.

(** [cls( **kwargs)]: every field takes the passed value, validated, and
    counts as set; a field that was not passed takes its default and does
    not count as set; a missing required field or an ill-typed value is a
    validation error ([None]). Keys that name no field are ignored. *)
Fixpoint validate_model (sch : schema) (kwargs : gmap string value) : option Model :=
  match sch with
  | [] => Some {| values := ∅; fields_set := ∅ |}
  | f :: sch' =>
      match validate_model sch' kwargs with
      | None => None
      | Some rest =>
          match kwargs !! name f with
          | Some v =>
              match validate_field f v with
              | Some v' =>
                  Some {| values := <[name f := v']> (values rest);
                          fields_set := {[name f]} ∪ fields_set rest |}
              | None => None
              end
          | None =>
              if optional f
              then Some {| values := <[name f := VNone]> (values rest);
                           fields_set := fields_set rest |}
              else None
          end
      end
  end.

(** [m.dict(skip_defaults=...)]: all fields, or with [skip_defaults] only
    the fields that were set. *)
Definition dict (skip_defaults : bool) (m : Model) : gmap string value :=
  if skip_defaults
  then filter (fun kv : string * value => kv.1 ∈ fields_set m) (values m)
  else values m.

(** The wire models of [models.py]. *)
Module models.
Definition StripeTransfer : schema :=
    [Field "id" TInt false;
     Field "created_at" TDatetime false;
     Field "transfer_id" TInt false;
     Field "stripe_status" TStr false;
     Field "stripe_id" TStr true;
     Field "stripe_request_id" TStr true;
     Field "stripe_failure_code" TStr true;
     Field "stripe_account_id" TStr true;
     Field "stripe_account_type" TStr true;
     Field "country_shortname" TStr true;
     Field "bank_last_four" TStr true;
     Field "bank_name" TStr true;
     Field "submission_error_code" TStr true;
     Field "submission_error_type" TStr true;
     Field "submission_status" TStr true;
     Field "submitted_at" TDatetime true].

Definition StripeTransferCreate : schema :=
    [Field "transfer_id" TInt false;
     Field "stripe_status" TStr false;
     Field "stripe_id" TStr true;
     Field "stripe_request_id" TStr true;
     Field "stripe_failure_code" TStr true;
     Field "stripe_account_id" TStr true;
     Field "stripe_account_type" TStr true;
     Field "country_shortname" TStr true;
     Field "bank_last_four" TStr true;
     Field "bank_name" TStr true;
     Field "submission_error_code" TStr true;
     Field "submission_error_type" TStr true;
     Field "submission_status" TStr true;
     Field "submitted_at" TDatetime true].

Definition StripeTransferUpdate : schema :=
    [Field "stripe_id" TStr true;
     Field "stripe_request_id" TStr true;
     Field "stripe_failure_code" TStr true;
     Field "stripe_account_id" TStr true;
     Field "stripe_account_type" TStr true;
     Field "country_shortname" TStr true;
     Field "bank_last_four" TStr true;
     Field "bank_name" TStr true;
     Field "submission_error_code" TStr true;
     Field "submission_error_type" TStr true;
     Field "submission_status" TStr true;
     Field "submitted_at" TDatetime true;
     Field "stripe_status" TStr true;
     Field "transfer_id" TInt true].
End models.

(** Modelled from the spec: the repository's models
    ([app.payout.repository.maindb.model.stripe_transfer]) are not among
    the sources. The wire models are declared as flat duplicates of them
    ("copied directly from db domain models"), so they have the fields of
    the wire models. *)
Module stripe_transfer.
Definition StripeTransfer : schema := models.StripeTransfer.
Definition StripeTransferCreate : schema := models.StripeTransferCreate.
Definition StripeTransferUpdate : schema := models.StripeTransferUpdate.
End stripe_transfer.

(** ** Responses *)

Definition HTTP_200_OK : Z := 200.
Definition HTTP_201_CREATED : Z := 201.
Definition HTTP_404_NOT_FOUND : Z := 404.

Record PaymentException := {
  http_status_code : Z;
  error_code : string;
  error_message : string;
  retryable : bool
}.

Record PaymentErrorResponseBody := {
  body_error_code : string;
  body_error_message : string;
  body_retryable : bool
}.

(** Modelled from the spec: the body returned by the delete route
    ([app.payout.api.response.Acknowledgement]) is not among the sources;
    the route builds it without arguments. *)
Inductive Acknowledgement := Acknowledgement_.

(** What a route function does: return a value, raise a
    [PaymentException], or fail in a model constructor. *)
Inductive outcome (A : Type) :=
| Return (a : A)
| Raise (e : PaymentException)
| RaiseValidationError.
Arguments Return {A} a.
Arguments Raise {A} e.
Arguments RaiseValidationError {A}.

Inductive content (A : Type) :=
| Body (a : A)
| ErrorBody (e : PaymentErrorResponseBody)
| ServerError.
Arguments Body {A} a.
Arguments ErrorBody {A} e.
Arguments ServerError {A}.

Record Response (A : Type) := { status_code : Z; body : content A }.
Arguments status_code {A} r.
Arguments body {A} r.

(** Modelled from the spec: the handler that turns a [PaymentException]
    into a response is not among the sources. The response has the
    exception's status code and the structured body
    [{error_code, error_message, retryable}]. *)
Definition payment_exception_handler {A} (e : PaymentException) : Response A :=
  {| status_code := http_status_code e;
     body := ErrorBody {| body_error_code := error_code e;
                          body_error_message := error_message e;
                          body_retryable := retryable e |} |}.

(** The route decorator: a returned value is sent with the route's
    [status_code]; a [PaymentException] goes through its handler; any other
    exception is a server error. *)
Definition respond {A} (route_status_code : Z) (o : outcome A) : Response A :=
  match o with
  | Return a => {| status_code := route_status_code; body := Body a |}
  | Raise e => payment_exception_handler e
  | RaiseValidationError => {| status_code := 500; body := ServerError |}
  end.

(** ** The repository the routes forward to

    [TransferRepositoryInterface] is injected into every route. Its
    implementation is not among the sources, so the routes are stated over
    any implementation, acting on a store of type [S]. A call that fails in
    the store is outside this model. *)
Module TransferRepositoryInterface.
Record t (S : Type) := make {
    create_transfer : Model -> S -> Model * S;
    get_transfer_by_id : Z -> S -> option Model * S;
    update_transfer_by_id : Z -> Model -> S -> option Model * S;
    create_stripe_transfer : Model -> S -> Model * S;
    get_stripe_transfer_by_stripe_id : string -> S -> option Model * S;
    get_stripe_transfers_by_transfer_id : Z -> S -> list Model * S;
    get_stripe_transfer_by_id : Z -> S -> option Model * S;
    update_stripe_transfer_by_id : Z -> Model -> S -> option Model * S;
    (* the result is discarded by the route *)
    delete_stripe_transfer_by_stripe_id : string -> S -> Z * S
  }.
Arguments create_transfer {S} _ _ _.
Arguments get_transfer_by_id {S} _ _ _.
Arguments update_transfer_by_id {S} _ _ _ _.
Arguments create_stripe_transfer {S} _ _ _.
Arguments get_stripe_transfer_by_stripe_id {S} _ _ _.
Arguments get_stripe_transfers_by_transfer_id {S} _ _ _.
Arguments get_stripe_transfer_by_id {S} _ _ _.
Arguments update_stripe_transfer_by_id {S} _ _ _ _.
Arguments delete_stripe_transfer_by_stripe_id {S} _ _ _.
End TransferRepositoryInterface.

(** ** The routes of [api.py] *)

Module api.
Section Routes.
Context {S : Type}.
Variable repository : TransferRepositoryInterface.t S.

Definition _transfer_not_found : PaymentException :=
  {| http_status_code := HTTP_404_NOT_FOUND;
     error_code := "transfer_not_found";
     error_message := "transfer not found";
     retryable := false |}.

Definition _stripe_transfer_not_found : PaymentException :=
  {| http_status_code := HTTP_404_NOT_FOUND;
     error_code := "stripe_transfer_not_found";
     error_message := "stripe transfer not found";
     retryable := false |}.

(** [StripeTransfer( **m.dict())] *)
Definition to_wire (internal_stripe_transfer : Model) : outcome Model :=
  match validate_model models.StripeTransfer (dict false internal_stripe_transfer) with
  | Some m => Return m
  | None => RaiseValidationError
  end.

Definition create_transfer (data : Model) (st : S) : outcome Model * S :=
  let '(transfer, st) := TransferRepositoryInterface.create_transfer repository data st in
  (Return transfer, st).

Definition get_transfer_by_id (transfer_id : Z) (st : S) : outcome Model * S :=
  let '(transfer, st) :=
    TransferRepositoryInterface.get_transfer_by_id repository transfer_id st in
  match transfer with
  | None => (Raise _transfer_not_found, st)
  | Some transfer => (Return transfer, st)
  end.

Definition update_transfer_by_id (transfer_id : Z) (data : Model) (st : S)
  : outcome Model * S :=
  let '(updated_transfer, st) :=
    TransferRepositoryInterface.update_transfer_by_id repository transfer_id data st in
  match updated_transfer with
  | None => (Raise _transfer_not_found, st)
  | Some updated_transfer => (Return updated_transfer, st)
  end.

Definition create_stripe_transfer (data : Model) (st : S) : outcome Model * S :=
  match validate_model stripe_transfer.StripeTransferCreate (dict true data) with
  | None => (RaiseValidationError, st)
  | Some internal_request =>
      let '(internal_stripe_transfer, st) :=
        TransferRepositoryInterface.create_stripe_transfer repository internal_request st in
      (to_wire internal_stripe_transfer, st)
  end.

Definition get_stripe_transfer_by_stripe_id (stripe_id : string) (st : S)
  : outcome (option Model) * S :=
  let '(internal_stripe_transfer, st) :=
    TransferRepositoryInterface.get_stripe_transfer_by_stripe_id repository stripe_id st in
  match internal_stripe_transfer with
  | Some internal_stripe_transfer =>
      (match to_wire internal_stripe_transfer with
       | Return m => Return (Some m)
       | Raise e => Raise e
       | RaiseValidationError => RaiseValidationError
       end, st)
  | None => (Return None, st)
  end.

(** The list comprehension: the first constructor that fails ends it. *)
Fixpoint to_wire_all (internal_stripe_transfers : list Model) : outcome (list Model) :=
  match internal_stripe_transfers with
  | [] => Return []
  | internal_stripe_transfer :: rest =>
      match to_wire internal_stripe_transfer with
      | Return m =>
          match to_wire_all rest with
          | Return ms => Return (m :: ms)
          | o => o
          end
      | Raise e => Raise e
      | RaiseValidationError => RaiseValidationError
      end
  end.

Definition get_stripe_transfer_by_transfer_id (transfer_id : Z) (st : S)
  : outcome (list Model) * S :=
  let '(internal_stripe_transfers, st) :=
    TransferRepositoryInterface.get_stripe_transfers_by_transfer_id repository transfer_id st in
  (to_wire_all internal_stripe_transfers, st).

Definition get_stripe_transfer_by_id (stripe_transfer_id : Z) (st : S)
  : outcome Model * S :=
  let '(internal_stripe_transfer, st) :=
    TransferRepositoryInterface.get_stripe_transfer_by_id repository stripe_transfer_id st in
  match internal_stripe_transfer with
  | None => (Raise _stripe_transfer_not_found, st)
  | Some internal_stripe_transfer => (to_wire internal_stripe_transfer, st)
  end.

Definition update_stripe_transfer_by_id (stripe_transfer_id : Z) (body : Model) (st : S)
  : outcome Model * S :=
  match validate_model stripe_transfer.StripeTransferUpdate (dict true body) with
  | None => (RaiseValidationError, st)
  | Some internal_request =>
      let '(internal_stripe_transfer, st) :=
        TransferRepositoryInterface.update_stripe_transfer_by_id
          repository stripe_transfer_id internal_request st in
      match internal_stripe_transfer with
      | None => (Raise _stripe_transfer_not_found, st)
      | Some internal_stripe_transfer => (to_wire internal_stripe_transfer, st)
      end
  end.

Definition delete_stripe_transfer_by_stripe_id (stripe_id : string) (st : S)
  : outcome Acknowledgement * S :=
  let '(_, st) :=
    TransferRepositoryInterface.delete_stripe_transfer_by_stripe_id repository stripe_id st in
  (Return Acknowledgement_, st).

(** The routes as registered on the router, named by their
    [operation_id], each with the [status_code] of its decorator. *)
Definition on_route {A} (route_status_code : Z) (r : outcome A * S) : Response A * S :=
  (respond route_status_code (fst r), snd r).

Definition CreateTransfer data st := on_route HTTP_201_CREATED (create_transfer data st).
Definition GetTransferById transfer_id st :=
  on_route HTTP_200_OK (get_transfer_by_id transfer_id st).
Definition UpdateTransferById transfer_id data st :=
  on_route HTTP_200_OK (update_transfer_by_id transfer_id data st).
Definition CreateStripeTransfer data st :=
  on_route HTTP_201_CREATED (create_stripe_transfer data st).
Definition GetStripeTransferByStripeId stripe_id st :=
  on_route HTTP_200_OK (get_stripe_transfer_by_stripe_id stripe_id st).
Definition GetStripeTransfersByTransferId transfer_id st :=
  on_route HTTP_200_OK (get_stripe_transfer_by_transfer_id transfer_id st).
Definition GetStripeTransferById stripe_transfer_id st :=
  on_route HTTP_200_OK (get_stripe_transfer_by_id stripe_transfer_id st).
Definition UpdateStripeTransferById stripe_transfer_id body st :=
  on_route HTTP_200_OK (update_stripe_transfer_by_id stripe_transfer_id body st).
Definition DeleteStripeTransferByStripeId stripe_id st :=
  on_route HTTP_200_OK (delete_stripe_transfer_by_stripe_id stripe_id st).

End Routes.
End api.

(** The set fields of [request] are those of [body_], with the values
    [body_] holds for them. *)
Definition forwards_exactly (body_ request : Model) : Prop :=
  fields_set request = fields_set body_ /\
  (forall k v, dict true request !! k = Some v <->
               k ∈ fields_set body_ /\ values body_ !! k = Some v).

End Payout.

(* ================================================================= *)
(** * A repository in memory *)

(** Modelled from the spec: the implementation of the transfer repository
    is not among the sources. This stand-in keeps the records in lists,
    assigns [id] and [created_at] on creation and updates with
    partial-update semantics: only supplied fields change. It shows what
    becomes of a stored record when a route forwards a request, and serves
    to run the routes on concrete requests. *)
Module InMemory.
Import Payout.

Record store := {
  transfers : list Model;
  stripe_transfers : list Model;
  next_id : Z;
  now : datetime
}.

Definition has (k : string) (v : value) (m : Model) : bool :=
  bool_decide (values m !! k = Some v).

Definition all_set (vals : gmap string value) : Model :=
  {| values := vals; fields_set := dom vals |}.

Definition new_row (st : store) (data : Model) : Model :=
  all_set (<["id" := VInt (next_id st)]> (<["created_at" := VDatetime (now st)]> (values data))).

(** The set fields of [data] replace the stored ones; the others stay. *)
Definition patch (data row : Model) : Model :=
  all_set (dict true data ∪ values row).

Definition patch_where (p : Model -> bool) (data : Model) (rows : list Model) : list Model :=
  List.map (fun row => if p row then patch data row else row) rows.

Definition repository : TransferRepositoryInterface.t store :=
  {| TransferRepositoryInterface.create_transfer data st :=
       let row := new_row st data in
       (row, {| transfers := transfers st ++ [row];
                stripe_transfers := stripe_transfers st;
                next_id := next_id st + 1; now := now st |});
     TransferRepositoryInterface.get_transfer_by_id transfer_id st :=
       (List.find (has "id" (VInt transfer_id)) (transfers st), st);
     TransferRepositoryInterface.update_transfer_by_id transfer_id data st :=
       let rows := patch_where (has "id" (VInt transfer_id)) data (transfers st) in
       (List.find (has "id" (VInt transfer_id)) rows,
        {| transfers := rows; stripe_transfers := stripe_transfers st;
           next_id := next_id st; now := now st |});
     TransferRepositoryInterface.create_stripe_transfer data st :=
       let row := new_row st data in
       (row, {| transfers := transfers st;
                stripe_transfers := stripe_transfers st ++ [row];
                next_id := next_id st + 1; now := now st |});
     TransferRepositoryInterface.get_stripe_transfer_by_stripe_id stripe_id st :=
       (List.find (has "stripe_id" (VStr stripe_id)) (stripe_transfers st), st);
     TransferRepositoryInterface.get_stripe_transfers_by_transfer_id transfer_id st :=
       (List.filter (has "transfer_id" (VInt transfer_id)) (stripe_transfers st), st);
     TransferRepositoryInterface.get_stripe_transfer_by_id stripe_transfer_id st :=
       (List.find (has "id" (VInt stripe_transfer_id)) (stripe_transfers st), st);
     TransferRepositoryInterface.update_stripe_transfer_by_id stripe_transfer_id data st :=
       let rows := patch_where (has "id" (VInt stripe_transfer_id)) data (stripe_transfers st) in
       (List.find (has "id" (VInt stripe_transfer_id)) rows,
        {| transfers := transfers st; stripe_transfers := rows;
           next_id := next_id st; now := now st |});
     TransferRepositoryInterface.delete_stripe_transfer_by_stripe_id stripe_id st :=
       let kept :=
         List.filter (fun row => negb (has "stripe_id" (VStr stripe_id) row))
                     (stripe_transfers st) in
       (Z.of_nat (length (stripe_transfers st)) - Z.of_nat (length kept),
        {| transfers := transfers st; stripe_transfers := kept;
           next_id := next_id st; now := now st |}) |}.

End InMemory.

(* ================================================================= *)
(** * Concrete stores and requests *)

Module Examples.

Definition dispute_1 : Dispute.StripeDisputeDbEntity.t :=
  Dispute.StripeDisputeDbEntity.make
    (Some 1) "dp_1" 100 500 15 (-515) (Some "usd") 50 "fraudulent" "needs_response"
    200 None None 7 70.

Definition dispute_2 : Dispute.StripeDisputeDbEntity.t :=
  Dispute.StripeDisputeDbEntity.make
    (Some 2) "dp_2" 150 900 15 (-915) (Some "usd") 60 "general" "needs_response"
    250 None None 8 80.

Definition dispute_3 : Dispute.StripeDisputeDbEntity.t :=
  Dispute.StripeDisputeDbEntity.make
    (Some 3) "dp_3" 180 300 15 (-315) None 90 "fraudulent" "under_review"
    280 (Some 170) (Some 170) 7 71.

Definition dispute_rows : Dispute.Table :=
  List.map Dispute.StripeDisputeDbEntity.to_row [dispute_1; dispute_2; dispute_3].

Definition dispute_db : Dispute.Database :=
  {| Dispute.master_rows := dispute_rows; Dispute.replica_rows := dispute_rows |}.

Definition stored_stripe_transfer : Payout.Model :=
  InMemory.all_set
    (list_to_map
       [("id", VInt 1); ("created_at", VDatetime 1000); ("transfer_id", VInt 10);
        ("stripe_status", VStr "pending"); ("stripe_id", VStr "tr_1");
        ("stripe_request_id", VStr "req_1");
        ("stripe_failure_code", VStr "account_closed");
        ("stripe_account_id", VStr "acct_1"); ("stripe_account_type", VNone);
        ("country_shortname", VStr "US"); ("bank_last_four", VStr "4242");
        ("bank_name", VStr "Bank"); ("submission_error_code", VNone);
        ("submission_error_type", VNone); ("submission_status", VNone);
        ("submitted_at", VDatetime 1001)]).

Definition transfer_store : InMemory.store :=
  {| InMemory.transfers := [];
     InMemory.stripe_transfers := [stored_stripe_transfer];
     InMemory.next_id := 2;
     InMemory.now := 2000 |}.

(** Request bodies as the client sends them: the fields it sets. *)
Definition update_kwargs : gmap string value :=
  list_to_map [("stripe_status", VStr "paid"); ("stripe_failure_code", VNone)].

Definition create_kwargs : gmap string value :=
  list_to_map [("transfer_id", VInt 10); ("stripe_status", VStr "pending");
               ("stripe_id", VNone)].

(** The wire model instances built from these entries. *)
Definition update_body : Payout.Model :=
  default {| Payout.values := ∅; Payout.fields_set := ∅ |}
    (Payout.validate_model Payout.models.StripeTransferUpdate update_kwargs).

Definition create_data : Payout.Model :=
  default {| Payout.values := ∅; Payout.fields_set := ∅ |}
    (Payout.validate_model Payout.models.StripeTransferCreate create_kwargs).

(** The empty body, and the wire model instance built from it. *)
Definition empty_kwargs : gmap string value := ∅.

Definition empty_body : Payout.Model :=
  default {| Payout.values := ∅; Payout.fields_set := ∅ |}
    (Payout.validate_model Payout.models.StripeTransferUpdate empty_kwargs).

Definition stored_transfer : Payout.Model :=
  InMemory.all_set (list_to_map [("id", VInt 5); ("created_at", VDatetime 900)]).

Definition transfer_store_with_transfer : InMemory.store :=
  {| InMemory.transfers := [stored_transfer];
     InMemory.stripe_transfers := [stored_stripe_transfer];
     InMemory.next_id := 6;
     InMemory.now := 2000 |}.

(** [dispute_2] after an update that sets both timestamps. *)
Definition dispute_2_updated : Dispute.StripeDisputeDbEntity.t :=
  Dispute.StripeDisputeDbEntity.make
    (Some 2) "dp_2" 150 900 15 (-915) (Some "usd") 60 "general" "needs_response"
    250 (Some 300) (Some 301) 8 80.

End Examples.

(* ================================================================= *)
(** * Properties of the dispute repository *)

Section ListFacts.
Context {A : Type} (p : A -> bool).

Lemma head_filter_Some (l : list A) (x : A) :
    head (List.filter p l) = Some x ->
    exists l1 l2, l = l1 ++ x :: l2 /\ p x = true /\ (forall y, In y l1 -> p y = false).
Proof.
    induction l as [|a l IH]; simpl; [discriminate|].
    destruct (p a) eqn:Ha; simpl.
    - intros [= <-]. exists [], l. repeat split; [assumption | intros y []].
    - intros H. destruct (IH H) as (l1 & l2 & -> & Hx & Hl1).
      exists (a :: l1), l2. repeat split; [assumption|].
      intros y [<- | Hy]; auto.
Qed.

Lemma head_filter_None (l : list A) :
    head (List.filter p l) = None <-> (forall y, In y l -> p y = false).
Proof.
    induction l as [|a l IH]; simpl.
    - split; [intros _ y [] | reflexivity].
    - destruct (p a) eqn:Ha; simpl.
      + split; [discriminate|]. intros H. specialize (H a (or_introl Logic.eq_refl)). congruence.
      + rewrite IH. split.
        * intros H y [<- | Hy]; auto.
        * intros H y Hy. apply H. now right.
Qed.

Lemma map_if_none (f : A -> A) (l : list A) :
    (forall y, In y l -> p y = false) ->
    List.map (fun y => if p y then f y else y) l = l.
Proof.
    induction l as [|a l IH]; simpl; intros H; [reflexivity|].
    rewrite (H a (or_introl Logic.eq_refl)). f_equal. apply IH. intros y Hy. apply H. now right.
Qed.
End ListFacts.

Lemma existsb_eqb_VInt (x : Z) (ids : list Z) :
  existsb (Dispute.sql_eq (VInt x)) (List.map VInt ids) = true <-> In x ids.
Proof.
  rewrite existsb_exists. split.
  - intros (v & Hv & He). apply in_map_iff in Hv as (y & <- & Hy).
    simpl in He. apply Z.eqb_eq in He. now subst.
  - intros H. exists (VInt x). split; [now apply in_map | simpl; apply Z.eqb_refl].
Qed.

Lemma existsb_eqb_VStr (x : string) (ss : list string) :
  existsb (Dispute.sql_eq (VStr x)) (List.map VStr ss) = true <-> In x ss.
Proof.
  rewrite existsb_exists. split.
  - intros (v & Hv & He). apply in_map_iff in Hv as (y & <- & Hy).
    simpl in He. apply String.eqb_eq in He. now subst.
  - intros H. exists (VStr x). split; [now apply in_map | simpl; apply String.eqb_refl].
Qed.

(** C10: [to_stripe_dispute] copies each of the fifteen fields of the
    entity to the field of the same name of the domain object. *)
Theorem to_stripe_dispute_fieldwise (e : Dispute.StripeDisputeDbEntity.t) :
  let d := Dispute.to_stripe_dispute e in
  Dispute.StripeDispute.id d = Dispute.StripeDisputeDbEntity.id e /\
  Dispute.StripeDispute.stripe_dispute_id d = Dispute.StripeDisputeDbEntity.stripe_dispute_id e /\
  Dispute.StripeDispute.disputed_at d = Dispute.StripeDisputeDbEntity.disputed_at e /\
  Dispute.StripeDispute.amount d = Dispute.StripeDisputeDbEntity.amount e /\
  Dispute.StripeDispute.fee d = Dispute.StripeDisputeDbEntity.fee e /\
  Dispute.StripeDispute.net d = Dispute.StripeDisputeDbEntity.net e /\
  Dispute.StripeDispute.currency d = Dispute.StripeDisputeDbEntity.currency e /\
  Dispute.StripeDispute.charged_at d = Dispute.StripeDisputeDbEntity.charged_at e /\
  Dispute.StripeDispute.reason d = Dispute.StripeDisputeDbEntity.reason e /\
  Dispute.StripeDispute.status d = Dispute.StripeDisputeDbEntity.status e /\
  Dispute.StripeDispute.evidence_due_by d = Dispute.StripeDisputeDbEntity.evidence_due_by e /\
  Dispute.StripeDispute.evidence_submitted_at d = Dispute.StripeDisputeDbEntity.evidence_submitted_at e /\
  Dispute.StripeDispute.updated_at d = Dispute.StripeDisputeDbEntity.updated_at e /\
  Dispute.StripeDispute.stripe_card_id d = Dispute.StripeDisputeDbEntity.stripe_card_id e /\
  Dispute.StripeDispute.stripe_charge_id d = Dispute.StripeDisputeDbEntity.stripe_charge_id e.
Proof. destruct e. cbn. repeat split. Qed.

Section DisputeRepository.

Import Dispute.

Lemma db_eta (db : Database) :
  {| master_rows := master_rows db; replica_rows := replica_rows db |} = db.
Proof. now destruct db. Qed.

(** Parameters of the type of their column are bound as they are. *)
Lemma bind_params_VInt (c : stripe_disputes.column) (ids : list Z) :
  column_type c = Integer -> bind_params c (List.map VInt ids) = Ok (List.map VInt ids).
Proof.
  intros Hc. induction ids as [|i ids IH]; [reflexivity|].
  cbn [List.map bind_params]. rewrite IH. unfold bind_param. now rewrite Hc.
Qed.

Lemma bind_params_VStr (c : stripe_disputes.column) (ss : list string) :
  column_type c = Text -> bind_params c (List.map VStr ss) = Ok (List.map VStr ss).
Proof.
  intros Hc. induction ss as [|x ss IH]; [reflexivity|].
  cbn [List.map bind_params]. rewrite IH. unfold bind_param. now rewrite Hc.
Qed.

(** The statements of the listing methods bind without error, so each of
    them returns the entities of the rows its clause selects. *)
Lemma list_disputes_by_payer_id_eq (input : GetAllStripeDisputesByPayerIdInput.t)
      (db : Database) :
  list_disputes_by_payer_id input db =
  (Ok (List.map StripeDisputeDbEntity.from_row
         (List.filter
            (holds (in_ stripe_disputes.stripe_card_id
                        (List.map VInt
                           (GetAllStripeDisputesByPayerIdInput.stripe_card_ids input))))
            (replica_rows db))),
   db).
Proof.
  unfold list_disputes_by_payer_id, fetch_all, bind, ret.
  cbn [bind_statement bind_clause]. rewrite bind_params_VInt by reflexivity.
  cbn [execute]. now rewrite db_eta.
Qed.

Lemma list_disputes_by_payment_method_id_eq
      (input : GetAllStripeDisputesByPaymentMethodIdInput.t) (db : Database) :
  list_disputes_by_payment_method_id input db =
  (Ok (List.map StripeDisputeDbEntity.from_row
         (List.filter
            (holds (eq stripe_disputes.stripe_card_id
                       (VInt (GetAllStripeDisputesByPaymentMethodIdInput.stripe_card_id
                                input))))
            (replica_rows db))),
   db).
Proof.
  unfold list_disputes_by_payment_method_id, fetch_all, bind, ret.
  cbn [bind_statement bind_clause bind_param column_type execute]. now rewrite db_eta.
Qed.

Lemma get_disputes_by_dd_consumer_id_eq (input : GetCumulativeAmountInput.t)
      (db : Database) :
  get_disputes_by_dd_consumer_id input db =
  (Ok (List.map StripeDisputeDbEntity.from_row
         (List.filter
            (holds
               (and_
                  [in_ stripe_disputes.stripe_card_id
                       (List.map VInt (GetCumulativeAmountInput.card_ids input));
                   in_ stripe_disputes.reason
                       (List.map VStr (GetCumulativeAmountInput.reasons input));
                   gt stripe_disputes.disputed_at
                      (VDatetime (GetCumulativeAmountInput.start_time input))]))
            (replica_rows db))),
   db).
Proof.
  unfold get_disputes_by_dd_consumer_id, fetch_all, bind, ret.
  cbn [bind_statement bind_clause].
  rewrite bind_params_VInt, bind_params_VStr by reflexivity.
  cbn [bind_param column_type execute]. now rewrite db_eta.
Qed.

Lemma get_disputes_by_dd_stripe_card_id_eq (input : GetCumulativeCountInput.t)
      (db : Database) :
  get_disputes_by_dd_stripe_card_id input db =
  (Ok (List.map StripeDisputeDbEntity.from_row
         (List.filter
            (holds
               (and_
                  [eq stripe_disputes.stripe_card_id
                      (VInt (GetCumulativeCountInput.stripe_card_id input));
                   in_ stripe_disputes.reason
                       (List.map VStr (GetCumulativeCountInput.reasons input));
                   gt stripe_disputes.disputed_at
                      (VDatetime (GetCumulativeCountInput.start_time input))]))
            (replica_rows db))),
   db).
Proof.
  unfold get_disputes_by_dd_stripe_card_id, fetch_all, bind, ret.
  cbn [bind_statement bind_clause].
  rewrite bind_params_VStr by reflexivity.
  cbn [bind_param column_type execute]. now rewrite db_eta.
Qed.

(** With [dispute_id_type] unset the lookup selects on [stripe_dispute_id]. *)
Lemma get_dispute_by_dispute_id_unset (sid : string) (db : Database) :
  get_dispute_by_dispute_id (GetStripeDisputeByIdInput.make sid None) db =
  (Ok (option_map StripeDisputeDbEntity.from_row
         (head (List.filter
                  (fun row : Row => String.eqb (row stripe_disputes.stripe_dispute_id) sid)
                  (replica_rows db)))),
   db).
Proof.
  unfold get_dispute_by_dispute_id, fetch_one, fetch_all, bind, ret.
  cbn. rewrite db_eta.
  first [reflexivity | f_equal; f_equal; destruct (head _); reflexivity].
Qed.

(** With [dispute_id_type] holding a string, whatever its text, the lookup
    selects on [id]: the given id is bound to the integer column, which
    fails for a text that is no integer. *)
Lemma get_dispute_by_dispute_id_set (sid ty : string) (db : Database) :
  get_dispute_by_dispute_id (GetStripeDisputeByIdInput.make sid (Some ty)) db =
  (match read_int sid with
   | Some n =>
       Ok (option_map StripeDisputeDbEntity.from_row
             (head (List.filter
                      (fun row : Row =>
                         match row stripe_disputes.id with
                         | Some m => Z.eqb m n
                         | None => false
                         end)
                      (replica_rows db))))
   | None => DataError
   end,
   db).
Proof.
  unfold get_dispute_by_dispute_id, fetch_one, fetch_all, bind, ret.
  cbn [GetStripeDisputeByIdInput.dispute_id_type GetStripeDisputeByIdInput.stripe_dispute_id
       is_ STRIPE_DISPUTE_ID bind_statement bind_clause bind_param column_type].
  destruct (read_int sid) as [n|]; [|reflexivity].
  cbn [execute]. rewrite db_eta. f_equal. f_equal.
  match goal with |- match head (List.filter ?p _) with _ => _ end
                     = option_map _ (head (List.filter ?q _)) =>
    assert (E : forall row, p row = q row) end.
  { intros row. unfold holds, cell. destruct (row stripe_disputes.id); reflexivity. }
  rewrite (List.filter_ext _ _ E). destruct (head _); reflexivity.
Qed.

(** C1: where [dispute_id_type] holds a string, whatever its text and so
    also the text of [STRIPE_DISPUTE_ID], [get_dispute_by_dispute_id]
    selects on the column [id], not on [stripe_dispute_id]. On the example
    store: asked for "2" it returns the dispute whose [id] is 2, whose
    [stripe_dispute_id] is "dp_2" and not "2", while no stored dispute has
    the [stripe_dispute_id] "2"; asked for "dp_2" it raises the store's
    [DataError]; only with [dispute_id_type] unset does "dp_2" find that
    dispute. *)
Theorem get_dispute_by_dispute_id_set_type_selects_on_id (ty : string) :
  get_dispute_by_dispute_id (GetStripeDisputeByIdInput.make "2" (Some ty))
    Examples.dispute_db = (Ok (Some Examples.dispute_2), Examples.dispute_db) /\
  StripeDisputeDbEntity.id Examples.dispute_2 = Some 2 /\
  StripeDisputeDbEntity.stripe_dispute_id Examples.dispute_2 = "dp_2" /\
  (forall row, In row (replica_rows Examples.dispute_db) ->
               row stripe_disputes.stripe_dispute_id <> "2") /\
  get_dispute_by_dispute_id (GetStripeDisputeByIdInput.make "dp_2" (Some ty))
    Examples.dispute_db = (DataError, Examples.dispute_db) /\
  get_dispute_by_dispute_id (GetStripeDisputeByIdInput.make "dp_2" None)
    Examples.dispute_db = (Ok (Some Examples.dispute_2), Examples.dispute_db).
Proof.
  rewrite !get_dispute_by_dispute_id_set, get_dispute_by_dispute_id_unset.
  split; [reflexivity|]. split; [reflexivity|]. split; [reflexivity|].
  split; [|split; reflexivity].
  intros row [<- | [<- | [<- | []]]]; discriminate.
Qed.

(** The conjunctive filter of [get_disputes_by_dd_consumer_id], read on the
    cells of a row. *)
Lemma holds_consumer_filter (card_ids : list Z) (reasons : list string)
      (start_time : datetime) (row : Row) :
  holds
    (and_ [in_ stripe_disputes.stripe_card_id (List.map VInt card_ids);
           in_ stripe_disputes.reason (List.map VStr reasons);
           gt stripe_disputes.disputed_at (VDatetime start_time)]) row = true <->
  In (row stripe_disputes.stripe_card_id) card_ids /\
  In (row stripe_disputes.reason) reasons /\
  start_time < row stripe_disputes.disputed_at.
Proof.
  cbn [holds forallb]. unfold cell. cbn [sql_gt].
  rewrite !andb_true_iff, existsb_eqb_VInt, existsb_eqb_VStr, Z.ltb_lt.
  tauto.
Qed.

(** C4: [get_disputes_by_dd_consumer_id] returns without error, reads the
    replica and changes nothing; an entity is in the result if and only if
    it is the entity of a replica row, its [stripe_card_id] is in
    [card_ids], its [reason] is in [reasons] and its [disputed_at] is
    strictly after [start_time]; so no returned entity has [disputed_at]
    equal to [start_time]. *)
Theorem get_disputes_by_dd_consumer_id_spec
    (card_ids : list Z) (reasons : list string) (start_time : datetime) (db : Database) :
  let input := GetCumulativeAmountInput.make card_ids start_time reasons in
  exists res,
    fst (get_disputes_by_dd_consumer_id input db) = Ok res /\
    snd (get_disputes_by_dd_consumer_id input db) = db /\
    (forall e,
       In e res <->
       (exists row, In row (replica_rows db) /\ e = StripeDisputeDbEntity.from_row row) /\
       In (StripeDisputeDbEntity.stripe_card_id e) card_ids /\
       In (StripeDisputeDbEntity.reason e) reasons /\
       start_time < StripeDisputeDbEntity.disputed_at e) /\
    (forall e, In e res -> StripeDisputeDbEntity.disputed_at e <> start_time).
Proof.
  intros input. subst input. rewrite get_disputes_by_dd_consumer_id_eq.
  cbn [fst snd GetCumulativeAmountInput.card_ids GetCumulativeAmountInput.reasons
       GetCumulativeAmountInput.start_time].
  eexists. split; [reflexivity|]. split; [reflexivity|].
  match goal with |- (forall e, In e ?l <-> _) /\ _ => set (res := l) end.
  assert (Hiff : forall e,
     In e res <->
     (exists row, In row (replica_rows db) /\ e = StripeDisputeDbEntity.from_row row) /\
     In (StripeDisputeDbEntity.stripe_card_id e) card_ids /\
     In (StripeDisputeDbEntity.reason e) reasons /\
     start_time < StripeDisputeDbEntity.disputed_at e).
  { intros e. subst res. rewrite in_map_iff. split.
    - intros (row & <- & Hrow). apply filter_In in Hrow as [Hin Hh].
      apply holds_consumer_filter in Hh. split; [eauto | exact Hh].
    - intros ((row & Hin & ->) & Hc). exists row. split; [reflexivity|].
      apply filter_In. split; [assumption|]. now apply holds_consumer_filter. }
  split; [exact Hiff|].
  intros e He. apply Hiff in He as (_ & _ & _ & Hlt). lia.
Qed.

(** C5: [list_disputes_by_payer_id] returns without error, reads the
    replica and changes nothing; an entity is in the result if and only if
    it is the entity of a replica row and its [stripe_card_id] is in
    [stripe_card_ids]; for the empty list the result is the empty list. *)
Theorem list_disputes_by_payer_id_spec (card_ids : list Z) (db : Database) :
  let input := GetAllStripeDisputesByPayerIdInput.make card_ids in
  exists res,
    fst (list_disputes_by_payer_id input db) = Ok res /\
    snd (list_disputes_by_payer_id input db) = db /\
    (forall e,
       In e res <->
       (exists row, In row (replica_rows db) /\ e = StripeDisputeDbEntity.from_row row) /\
       In (StripeDisputeDbEntity.stripe_card_id e) card_ids) /\
    (card_ids = [] -> res = []).
Proof.
  intros input. subst input. rewrite list_disputes_by_payer_id_eq.
  cbn [fst snd GetAllStripeDisputesByPayerIdInput.stripe_card_ids].
  eexists. split; [reflexivity|]. split; [reflexivity|]. split.
  - intros e. rewrite in_map_iff. split.
    + intros (row & <- & Hrow). apply filter_In in Hrow as [Hin Hh].
      cbn [holds] in Hh. unfold cell in Hh. apply existsb_eqb_VInt in Hh.
      split; [eauto | exact Hh].
    + intros ((row & Hin & ->) & Hc). exists row. split; [reflexivity|].
      apply filter_In. split; [assumption|].
      cbn [holds]. unfold cell. now apply existsb_eqb_VInt.
  - intros ->. cbn [List.map holds existsb].
    induction (replica_rows db) as [|row t IH]; [reflexivity | exact IH].
Qed.

Lemma updated_other request_set row (c : stripe_disputes.column) :
  c <> stripe_disputes.evidence_submitted_at -> c <> stripe_disputes.updated_at ->
  updated request_set row c = row c.
Proof. destruct c; intros H1 H2; try reflexivity; contradiction. Qed.

Lemma update_dispute_details_eq request_set request_where db :
  update_dispute_details request_set request_where db =
  (Ok (option_map StripeDisputeDbEntity.from_row
         (head (List.map (updated request_set)
                  (List.filter
                     (fun row : Row =>
                        String.eqb (row stripe_disputes.stripe_dispute_id)
                                   (UpdateStripeDisputeWhereInput.id request_where))
                     (master_rows db))))),
   {| master_rows :=
        List.map (fun row : Row =>
                    if String.eqb (row stripe_disputes.stripe_dispute_id)
                                  (UpdateStripeDisputeWhereInput.id request_where)
                    then updated request_set row else row) (master_rows db);
      replica_rows := replica_rows db |}).
Proof.
  unfold update_dispute_details, fetch_one, fetch_all, bind, ret.
  cbn [bind_statement bind_clause bind_param column_type execute].
  first [reflexivity | f_equal; f_equal; destruct (head _); reflexivity].
Qed.

(** C3: [update_dispute_details] leaves the replica view and the number of
    master rows as they are; a master row whose [stripe_dispute_id] differs
    from the where-id is unchanged, and every row keeps every cell other
    than [evidence_submitted_at] and [updated_at]. *)
Theorem update_dispute_details_frame
    (request_set : UpdateStripeDisputeSetInput.t)
    (request_where : UpdateStripeDisputeWhereInput.t) (db : Database) :
  let db' := snd (update_dispute_details request_set request_where db) in
  replica_rows db' = replica_rows db /\
  length (master_rows db') = length (master_rows db) /\
  (forall (i : nat) (row row' : Row),
     nth_error (master_rows db) i = Some row ->
     nth_error (master_rows db') i = Some row' ->
     (row stripe_disputes.stripe_dispute_id <> UpdateStripeDisputeWhereInput.id request_where ->
      row' = row) /\
     (forall c : stripe_disputes.column,
        c <> stripe_disputes.evidence_submitted_at -> c <> stripe_disputes.updated_at ->
        row' c = row c)).
Proof.
  intros db'. subst db'. rewrite update_dispute_details_eq. cbn [snd master_rows replica_rows].
  split; [reflexivity|]. split; [apply length_map|].
  intros i row row' Hrow Hrow'.
  rewrite nth_error_map, Hrow in Hrow'. cbn in Hrow'. injection Hrow' as <-.
  split.
  - intros Hne. apply String.eqb_neq in Hne. now rewrite Hne.
  - intros c H1 H2. destruct (String.eqb _ _); [now apply updated_other | reflexivity].
Qed.

(** C6: when a master row has the where-id as its [stripe_dispute_id],
    [update_dispute_details] returns the entity of the first such row as it
    stands in the store after the update, with both set-values in place;
    when no master row has it, the result is [None], no error, and the
    store is unchanged. *)
Theorem update_dispute_details_result
    (request_set : UpdateStripeDisputeSetInput.t)
    (request_where : UpdateStripeDisputeWhereInput.t) (db : Database) :
  let res := fst (update_dispute_details request_set request_where db) in
  let db' := snd (update_dispute_details request_set request_where db) in
  let wid := UpdateStripeDisputeWhereInput.id request_where in
  ((exists row, In row (master_rows db) /\ row stripe_disputes.stripe_dispute_id = wid) ->
   exists (i : nat) (row row' : Row),
     nth_error (master_rows db) i = Some row /\
     row stripe_disputes.stripe_dispute_id = wid /\
     (forall (j : nat) r, (j < i)%nat -> nth_error (master_rows db) j = Some r ->
                          r stripe_disputes.stripe_dispute_id <> wid) /\
     nth_error (master_rows db') i = Some row' /\
     res = Ok (Some (StripeDisputeDbEntity.from_row row')) /\
     row' stripe_disputes.stripe_dispute_id = wid /\
     row' stripe_disputes.evidence_submitted_at =
       Some (UpdateStripeDisputeSetInput.evidence_submitted_at request_set) /\
     row' stripe_disputes.updated_at =
       Some (UpdateStripeDisputeSetInput.updated_at request_set)) /\
  ((forall row, In row (master_rows db) -> row stripe_disputes.stripe_dispute_id <> wid) ->
   res = Ok None /\ db' = db).
Proof.
  intros res db' wid. subst res db'. rewrite update_dispute_details_eq. cbn [fst snd].
  fold wid. set (p := fun row : Row => String.eqb (row stripe_disputes.stripe_dispute_id) wid).
  split.
  - intros (row & Hin & Hrow).
    destruct (head (List.filter p (master_rows db))) as [row0|] eqn:Hh.
    + pose proof Hh as Hh'.
      apply head_filter_Some in Hh as (l1 & l2 & Hl & Hp & Hl1).
      exists (length l1), row0, (updated request_set row0).
      unfold p in Hp. apply String.eqb_eq in Hp.
      assert (Hnth : nth_error (master_rows db) (length l1) = Some row0).
      { rewrite Hl, nth_error_app2, Nat.sub_diag by lia. reflexivity. }
      repeat split.
      * exact Hnth.
      * exact Hp.
      * intros j r Hj Hr. rewrite Hl, nth_error_app1 in Hr by exact Hj.
        apply nth_error_In, Hl1 in Hr. unfold p in Hr. now apply String.eqb_neq.
      * cbn [master_rows]. rewrite nth_error_map, Hnth. cbn.
        fold (p row0). unfold p. apply String.eqb_eq in Hp. now rewrite Hp.
      * destruct (List.filter p (master_rows db)); [discriminate|].
        injection Hh' as ->. reflexivity.
      * exact Hp.
    + rewrite head_filter_None in Hh. specialize (Hh row Hin). unfold p in Hh.
      apply String.eqb_neq in Hh. contradiction.
  - intros Hnone.
    assert (Hp : forall row, In row (master_rows db) -> p row = false).
    { intros row Hin. unfold p. now apply String.eqb_neq, Hnone. }
    split.
    + pose proof (proj2 (head_filter_None p (master_rows db)) Hp) as Hh.
      destruct (List.filter p (master_rows db)); [reflexivity | discriminate].
    + transitivity {| master_rows := master_rows db; replica_rows := replica_rows db |};
        [|apply db_eta].
      f_equal. apply (map_if_none p (updated request_set) _ Hp).
Qed.

End DisputeRepository.

(* ================================================================= *)
(** * Properties of the models *)

Section Models.
Import Payout.

Lemma validate_field_same (f : field) (v v' : value) :
  validate_field f v = Some v' -> v' = v.
Proof.
  unfold validate_field.
  destruct v; repeat match goal with |- context [if ?b then _ else _] => destruct b end;
    congruence.
Qed.

Lemma validate_field_VNone (f : field) :
  optional f = true -> validate_field f VNone = Some VNone.
Proof. intros H. unfold validate_field. now rewrite H. Qed.

(** The constructor reads [kwargs] at the names of the fields only. *)
Lemma validate_model_ext (sch : schema) (k1 k2 : gmap string value) :
  (forall k, k ∈ names sch -> k1 !! k = k2 !! k) ->
  validate_model sch k1 = validate_model sch k2.
Proof.
  induction sch as [|f sch IH]; intros H; [reflexivity|]. simpl.
  rewrite IH by (intros k Hk; apply H; simpl; now apply list_elem_of_further).
  rewrite (H (name f)) by (simpl; apply list_elem_of_here).
  reflexivity.
Qed.

(** Every field holds the passed value, or [None] when none was passed. *)
Lemma validate_model_values (sch : schema) (kwargs : gmap string value) (m : Model) :
  validate_model sch kwargs = Some m ->
  forall k, values m !! k =
            if decide (k ∈ names sch) then Some (default VNone (kwargs !! k)) else None.
Proof.
  revert m. induction sch as [|f sch IH]; intros m Hm k; cbn [validate_model] in Hm.
  - injection Hm as <-. cbn [values]. rewrite lookup_empty.
    case_decide as H; [now apply elem_of_nil in H | reflexivity].
  - destruct (validate_model sch kwargs) as [rest|]; [|discriminate].
    specialize (IH rest Logic.eq_refl k).
    assert (Hv : values m = <[name f := default VNone (kwargs !! name f)]> (values rest)).
    { destruct (kwargs !! name f) as [v|] eqn:Hk.
      - destruct (validate_field f v) as [v'|] eqn:Hf; [|discriminate].
        apply validate_field_same in Hf as ->. now injection Hm as <-.
      - destruct (optional f); [|discriminate]. now injection Hm as <-. }
    rewrite Hv. change (names (f :: sch)) with (name f :: names sch).
    destruct (decide (k = name f)) as [->|Hne].
    + rewrite lookup_insert_eq. rewrite decide_True by apply list_elem_of_here. reflexivity.
    + rewrite lookup_insert_ne by congruence. rewrite IH.
      repeat case_decide; try reflexivity.
      * exfalso. match goal with H : _ ∉ _ :: _ |- _ => apply H end.
        now apply list_elem_of_further.
      * match goal with H : _ ∈ _ :: _ |- _ => apply elem_of_cons in H as [?|?] end;
          contradiction.
Qed.

(** A field counts as set exactly when it was passed. *)
Lemma validate_model_fields_set (sch : schema) (kwargs : gmap string value) (m : Model) :
  validate_model sch kwargs = Some m ->
  forall k, k ∈ fields_set m <-> k ∈ names sch /\ is_Some (kwargs !! k).
Proof.
  revert m. induction sch as [|f sch IH]; intros m Hm k; simpl in *.
  - injection Hm as <-. simpl. split; [intros H; now apply not_elem_of_empty in H|].
    intros [H _]. now apply elem_of_nil in H.
  - destruct (validate_model sch kwargs) as [rest|]; [|discriminate].
    specialize (IH rest Logic.eq_refl k). rewrite elem_of_cons.
    destruct (kwargs !! name f) as [v|] eqn:Hk.
    + destruct (validate_field f v) as [v'|]; [|discriminate]. injection Hm as <-. simpl.
      rewrite elem_of_union, elem_of_singleton, IH. split.
      * intros [-> | [H1 H2]]; [split; [now left | now rewrite Hk] | split; [now right | assumption]].
      * intros [[-> | H1] H2]; [now left | right; now split].
    + destruct (optional f); [|discriminate]. injection Hm as <-. simpl.
      rewrite IH. split.
      * intros [H1 H2]. split; [now right | assumption].
      * intros [[-> | H1] H2]; [rewrite Hk in H2; now destruct H2 | now split].
Qed.

(** [dict(skip_defaults=True)] of an instance gives back what was passed,
    at the names of the fields. *)
Lemma dict_skip_defaults_lookup (sch : schema) (kwargs : gmap string value) (m : Model) :
  validate_model sch kwargs = Some m ->
  forall k, dict true m !! k = if decide (k ∈ names sch) then kwargs !! k else None.
Proof.
  intros Hm k. apply option_eq. intros v. unfold dict.
  rewrite map_lookup_filter_Some. simpl.
  rewrite (validate_model_values _ _ _ Hm), (validate_model_fields_set _ _ _ Hm).
  destruct (decide (k ∈ names sch)) as [Hin|Hnin].
  - split.
    + intros [Hv [_ [w Hw]]]. rewrite Hw in *. simpl in Hv. congruence.
    + intros Hv. rewrite Hv. simpl. split; [reflexivity|]. split; [assumption | eauto].
  - split; [intros [[=] _] | discriminate].
Qed.

(** Building the same model again from [dict(skip_defaults=True)] gives
    the same instance: same values, same set fields. *)
Lemma validate_model_dict_skip_defaults (sch : schema) (kwargs : gmap string value) (m : Model) :
  validate_model sch kwargs = Some m ->
  validate_model sch (dict true m) = Some m.
Proof.
  intros Hm. rewrite <- Hm. apply validate_model_ext. intros k Hk.
  rewrite (dict_skip_defaults_lookup _ _ _ Hm). now rewrite decide_True.
Qed.

(** Without [skip_defaults] every field would reach the second constructor
    and count as set there. *)
Lemma dict_all_sets_every_field (sch : schema) (kwargs : gmap string value) (m m' : Model) :
  validate_model sch kwargs = Some m ->
  validate_model sch (dict false m) = Some m' ->
  forall k, k ∈ fields_set m' <-> k ∈ names sch.
Proof.
  intros Hm Hm' k. rewrite (validate_model_fields_set _ _ _ Hm'). unfold dict.
  rewrite (validate_model_values _ _ _ Hm). split; [tauto|].
  intros Hk. split; [assumption|]. rewrite decide_True by assumption. eauto.
Qed.

(** When the constructor succeeds. *)
Lemma validate_model_is_Some (sch : schema) (kwargs : gmap string value) :
  is_Some (validate_model sch kwargs) <->
  Forall (fun f => match kwargs !! name f with
                   | Some v => is_Some (validate_field f v)
                   | None => optional f = true
                   end) sch.
Proof.
  induction sch as [|f sch IH]; simpl.
  - split; [constructor | eauto].
  - rewrite Forall_cons, <- IH.
    destruct (validate_model sch kwargs) as [rest|];
      [destruct (kwargs !! name f) as [v|];
         [destruct (validate_field f v) | destruct (optional f)] |];
      (split;
       [ intros H; try (apply is_Some_None in H; contradiction); eauto
       | intros [H1 H2]; try discriminate;
         try (apply is_Some_None in H1; contradiction);
         try (apply is_Some_None in H2; contradiction); eauto ]).
Qed.

(** A stored instance converts to the wire model, value for value. *)
Lemma to_wire_instance (kwargs : gmap string value) (internal : Model) :
  validate_model stripe_transfer.StripeTransfer kwargs = Some internal ->
  exists wire, api.to_wire internal = Return wire /\ values wire = values internal.
Proof.
  intros Hm.
  assert (Hs : is_Some (validate_model models.StripeTransfer (dict false internal))).
  { apply validate_model_is_Some.
    assert (Hk : is_Some (validate_model stripe_transfer.StripeTransfer kwargs)) by eauto.
    apply validate_model_is_Some in Hk.
    unfold stripe_transfer.StripeTransfer in *.
    rewrite Forall_forall in Hk. apply Forall_forall. intros f Hf.
    specialize (Hk f Hf). unfold dict.
    rewrite (validate_model_values _ _ _ Hm (name f)).
    rewrite decide_True by (apply list_elem_of_In, in_map, list_elem_of_In, Hf).
    destruct (kwargs !! name f) as [v|]; cbn [default].
    - destruct Hk as [v' Hv']. pose proof Hv' as Hv''.
      apply validate_field_same in Hv'' as ->. eauto.
    - rewrite validate_field_VNone by assumption. eauto. }
  destruct Hs as [wire Hw]. exists wire. unfold api.to_wire. rewrite Hw. split; [reflexivity|].
  apply map_eq. intros k.
  rewrite (validate_model_values _ _ _ Hw). unfold dict.
  rewrite (validate_model_values _ _ _ Hm). unfold stripe_transfer.StripeTransfer.
  destruct (decide _); reflexivity.
Qed.

End Models.

(* ================================================================= *)
(** * Properties of the routes *)

(** A patch keeps every field its request does not set. *)
Lemma patch_keeps_unset (data row : Payout.Model) (k : string) :
  k ∉ Payout.fields_set data ->
  Payout.values (InMemory.patch data row) !! k = Payout.values row !! k.
Proof.
  intros Hk. unfold InMemory.patch, InMemory.all_set. cbn [Payout.values].
  apply lookup_union_r. unfold Payout.dict.
  apply map_lookup_filter_None. right. intros v _ Hin. now apply Hk.
Qed.


Section RouteProperties.
Import Payout.
Context {S : Type}.
Variable repository : TransferRepositoryInterface.t S.

(** C2: the create and the update route for stripe transfers build the
    repository's request from the fields set on the body, the fields the
    client set, and pass it to the repository's create or update call: the
    request has the same set fields as the body, with the values the body
    holds for them, and these are the fields of the model among the entries
    the body was built from; a field that is not set on the body is not set in the
    request and absent from its [dict(skip_defaults=True)]; a field set to
    null is set in the request, with the value [None]. On the repository
    in memory, which writes the set fields of a request, the update route
    leaves every stored value of a field the client did not set as it was,
    and the create route leaves the stored records as they were and adds a
    record that holds the default [None] for each field the client did not
    set. *)
Theorem stripe_transfer_routes_forward_set_fields (st : S) :
  (forall (kwargs : gmap string value) (data : Model),
     validate_model models.StripeTransferCreate kwargs = Some data ->
     exists internal_request,
       validate_model stripe_transfer.StripeTransferCreate (dict true data)
         = Some internal_request /\
       api.create_stripe_transfer repository data st =
         (api.to_wire
            (fst (TransferRepositoryInterface.create_stripe_transfer
                    repository internal_request st)),
          snd (TransferRepositoryInterface.create_stripe_transfer
                 repository internal_request st)) /\
       forwards_exactly data internal_request /\
       (forall k, k ∈ fields_set internal_request <->
                  k ∈ names models.StripeTransferCreate /\ is_Some (kwargs !! k)) /\
       (forall k, k ∉ fields_set data ->
                  (k ∉ fields_set internal_request) /\
                  dict true internal_request !! k = None) /\
       (forall k, k ∈ fields_set data -> values data !! k = Some VNone ->
                  k ∈ fields_set internal_request /\
                  dict true internal_request !! k = Some VNone)) /\
  (forall (stripe_transfer_id : Z) (kwargs : gmap string value) (body_ : Model),
     validate_model models.StripeTransferUpdate kwargs = Some body_ ->
     exists internal_request,
       validate_model stripe_transfer.StripeTransferUpdate (dict true body_)
         = Some internal_request /\
       api.update_stripe_transfer_by_id repository stripe_transfer_id body_ st =
         (match fst (TransferRepositoryInterface.update_stripe_transfer_by_id
                       repository stripe_transfer_id internal_request st) with
          | None => Raise api._stripe_transfer_not_found
          | Some internal_stripe_transfer => api.to_wire internal_stripe_transfer
          end,
          snd (TransferRepositoryInterface.update_stripe_transfer_by_id
                 repository stripe_transfer_id internal_request st)) /\
       forwards_exactly body_ internal_request /\
       (forall k, k ∈ fields_set internal_request <->
                  k ∈ names models.StripeTransferUpdate /\ is_Some (kwargs !! k)) /\
       (forall k, k ∉ fields_set body_ ->
                  (k ∉ fields_set internal_request) /\
                  dict true internal_request !! k = None) /\
       (forall k, k ∈ fields_set body_ -> values body_ !! k = Some VNone ->
                  k ∈ fields_set internal_request /\
                  dict true internal_request !! k = Some VNone)) /\
  (forall (stored : InMemory.store) (stripe_transfer_id : Z)
          (kwargs : gmap string value) (body_ : Model),
     validate_model models.StripeTransferUpdate kwargs = Some body_ ->
     let stored' :=
       snd (api.UpdateStripeTransferById InMemory.repository stripe_transfer_id body_
              stored) in
     InMemory.transfers stored' = InMemory.transfers stored /\
     length (InMemory.stripe_transfers stored') = length (InMemory.stripe_transfers stored) /\
     (forall (i : nat) (row row' : Model),
        nth_error (InMemory.stripe_transfers stored) i = Some row ->
        nth_error (InMemory.stripe_transfers stored') i = Some row' ->
        forall k, k ∉ fields_set body_ -> values row' !! k = values row !! k)) /\
  (forall (stored : InMemory.store) (kwargs : gmap string value) (data : Model),
     validate_model models.StripeTransferCreate kwargs = Some data ->
     let stored' := snd (api.CreateStripeTransfer InMemory.repository data stored) in
     exists created,
       InMemory.stripe_transfers stored' = InMemory.stripe_transfers stored ++ [created] /\
       InMemory.transfers stored' = InMemory.transfers stored /\
       (forall k, k ∈ names models.StripeTransferCreate -> k ∉ fields_set data ->
                  values created !! k = Some VNone) /\
       (forall k, k ∈ fields_set data -> values created !! k = values data !! k)).
Proof.
  assert (Hfwd : forall m : Model, forwards_exactly m m).
  { intros m. split; [reflexivity|]. intros k v. unfold dict.
    rewrite map_lookup_filter_Some. cbn. tauto. }
  assert (Hunset : forall (m : Model) k, k ∉ fields_set m ->
                     (k ∉ fields_set m) /\ dict true m !! k = None).
  { intros m k Hk. split; [exact Hk|]. apply eq_None_not_Some. intros [v Hv].
    apply (proj2 (Hfwd m)) in Hv as [Hin _]. contradiction. }
  assert (Hnull : forall (m : Model) k, k ∈ fields_set m -> values m !! k = Some VNone ->
                    k ∈ fields_set m /\ dict true m !! k = Some VNone).
  { intros m k Hk Hv. split; [exact Hk|]. apply (proj2 (Hfwd m)). now split. }
  split; [|split; [|split]].
  - intros kwargs data Hd. exists data.
    pose proof (validate_model_dict_skip_defaults _ _ _ Hd) as Hi.
    split; [exact Hi|].
    split; [|split; [apply Hfwd | split; [apply (validate_model_fields_set _ _ _ Hd) |
                                          split; [apply Hunset | apply Hnull]]]].
    unfold api.create_stripe_transfer, stripe_transfer.StripeTransferCreate. rewrite Hi.
    now destruct (TransferRepositoryInterface.create_stripe_transfer repository data st).
  - intros stripe_transfer_id kwargs body_ Hd. exists body_.
    pose proof (validate_model_dict_skip_defaults _ _ _ Hd) as Hi.
    split; [exact Hi|].
    split; [|split; [apply Hfwd | split; [apply (validate_model_fields_set _ _ _ Hd) |
                                          split; [apply Hunset | apply Hnull]]]].
    unfold api.update_stripe_transfer_by_id, stripe_transfer.StripeTransferUpdate.
    rewrite Hi.
    destruct (TransferRepositoryInterface.update_stripe_transfer_by_id
                repository stripe_transfer_id body_ st) as [[r|] st']; reflexivity.
  - intros stored stripe_transfer_id kwargs body_ Hd stored'. subst stored'.
    unfold api.UpdateStripeTransferById, api.on_route, api.update_stripe_transfer_by_id,
      stripe_transfer.StripeTransferUpdate.
    rewrite (validate_model_dict_skip_defaults _ _ _ Hd).
    cbn [InMemory.repository TransferRepositoryInterface.update_stripe_transfer_by_id].
    destruct (List.find _ _); cbn [snd InMemory.transfers InMemory.stripe_transfers];
      (split; [reflexivity|]; split; [apply length_map|];
       intros i row row' Hrow Hrow' k Hk;
       unfold InMemory.patch_where in Hrow';
       rewrite nth_error_map, Hrow in Hrow'; cbn in Hrow'; injection Hrow' as <-;
       destruct (InMemory.has _ _ row); [now apply patch_keeps_unset | reflexivity]).
  - intros stored kwargs data Hd stored'. subst stored'.
    unfold api.CreateStripeTransfer, api.on_route, api.create_stripe_transfer,
      stripe_transfer.StripeTransferCreate.
    rewrite (validate_model_dict_skip_defaults _ _ _ Hd).
    cbn [InMemory.repository TransferRepositoryInterface.create_stripe_transfer snd
         InMemory.transfers InMemory.stripe_transfers].
    exists (InMemory.new_row stored data).
    split; [reflexivity|]. split; [reflexivity|].
    assert (Hother : forall k, k ∈ names models.StripeTransferCreate ->
                       values (InMemory.new_row stored data) !! k = values data !! k).
    { intros k Hk. unfold InMemory.new_row, InMemory.all_set. cbn [values].
      assert (Hne : k <> "id" /\ k <> "created_at").
      { cbv [names models.StripeTransferCreate List.map name] in Hk.
        repeat (apply elem_of_cons in Hk as [-> | Hk]; [split; discriminate|]).
        now apply elem_of_nil in Hk. }
      destruct Hne as [H1 H2]. now rewrite !lookup_insert_ne by congruence. }
    split.
    + intros k Hk Hunset'. rewrite (Hother k Hk).
      rewrite (validate_model_values _ _ _ Hd), decide_True by exact Hk.
      destruct (kwargs !! k) as [v|] eqn:E; [|reflexivity].
      exfalso. apply Hunset'. apply (validate_model_fields_set _ _ _ Hd). split; eauto.
    + intros k Hk. apply Hother.
      now apply (validate_model_fields_set _ _ _ Hd) in Hk as [Hk _].
Qed.

(** C7: the lookup by stripe id never answers 404. When the repository
    finds no stripe transfer with that id the answer is 200 with a null
    body; when it finds one, a stored instance, the answer is 200 with that
    one record, value for value. *)
Theorem get_stripe_transfer_by_stripe_id_absent_is_null (stripe_id : string) (st : S) :
  let found :=
    fst (TransferRepositoryInterface.get_stripe_transfer_by_stripe_id repository stripe_id st) in
  let response := fst (api.GetStripeTransferByStripeId repository stripe_id st) in
  status_code response <> HTTP_404_NOT_FOUND /\
  (found = None -> response = {| status_code := 200; body := Body None |}) /\
  (forall internal kwargs,
     found = Some internal ->
     validate_model stripe_transfer.StripeTransfer kwargs = Some internal ->
     exists wire, values wire = values internal /\
                  response = {| status_code := 200; body := Body (Some wire) |}).
Proof.
  intros found response. subst found response.
  unfold api.GetStripeTransferByStripeId, api.on_route, api.get_stripe_transfer_by_stripe_id.
  destruct (TransferRepositoryInterface.get_stripe_transfer_by_stripe_id repository stripe_id st)
    as [[internal|] st']; cbn [fst snd].
  - split; [|split].
    + unfold api.to_wire. destruct (validate_model _ _); cbn; discriminate.
    + discriminate.
    + intros internal' kwargs [= <-] Hk.
      destruct (to_wire_instance _ _ Hk) as (wire & Hw & Hv).
      exists wire. rewrite Hw. split; [exact Hv | reflexivity].
  - split; [|split].
    + cbn. discriminate.
    + reflexivity.
    + discriminate.
Qed.

(** C8: the delete route answers 200 with the acknowledgement whatever the
    repository reports, and leaves the store as the repository's delete
    call left it; so does a second call with the same id. *)
Theorem delete_stripe_transfer_by_stripe_id_acknowledges (stripe_id : string) (st : S) :
  let ack := {| status_code := 200; body := Body Acknowledgement_ |} in
  let st' := snd (api.DeleteStripeTransferByStripeId repository stripe_id st) in
  fst (api.DeleteStripeTransferByStripeId repository stripe_id st) = ack /\
  st' = snd (TransferRepositoryInterface.delete_stripe_transfer_by_stripe_id
               repository stripe_id st) /\
  fst (api.DeleteStripeTransferByStripeId repository stripe_id st') = ack.
Proof.
  intros ack st'. subst ack st'.
  unfold api.DeleteStripeTransferByStripeId, api.on_route,
    api.delete_stripe_transfer_by_stripe_id.
  destruct (TransferRepositoryInterface.delete_stripe_transfer_by_stripe_id
              repository stripe_id st) as [n st1]. cbn [fst snd].
  destruct (TransferRepositoryInterface.delete_stripe_transfer_by_stripe_id
              repository stripe_id st1) as [n' st2].
  repeat split.
Qed.

(** C9: when the repository finds no transfer with the given id, the
    lookup route answers 404 with the structured error body whose
    [error_code] is [transfer_not_found] and whose [retryable] is false. *)
Theorem get_transfer_by_id_not_found (transfer_id : Z) (st : S) :
  fst (TransferRepositoryInterface.get_transfer_by_id repository transfer_id st) = None ->
  fst (api.GetTransferById repository transfer_id st) =
    {| status_code := 404;
       body := ErrorBody {| body_error_code := "transfer_not_found";
                            body_error_message := "transfer not found";
                            body_retryable := false |} |}.
Proof.
  unfold api.GetTransferById, api.on_route, api.get_transfer_by_id.
  destruct (TransferRepositoryInterface.get_transfer_by_id repository transfer_id st)
    as [[transfer|] st']; cbn [fst]; [discriminate|]. intros _. reflexivity.
Qed.

End RouteProperties.

(* ================================================================= *)
(** * The routes on the repository in memory *)

(** On the repository in memory, the update route given only
    [stripe_status] and a null [stripe_failure_code] writes these two
    fields of the stored record, the null included, and no other. *)
Example update_route_keeps_unset_fields :
  forall body, Payout.validate_model Payout.models.StripeTransferUpdate
                 Examples.update_kwargs = Some body ->
  match InMemory.stripe_transfers
          (snd (Payout.api.UpdateStripeTransferById InMemory.repository 1 body
                  Examples.transfer_store)) with
  | [row] =>
      Payout.values row =
      <["stripe_status" := VStr "paid"]>
        (<["stripe_failure_code" := VNone]> (Payout.values Examples.stored_stripe_transfer))
  | _ => False
  end.
Proof. intros body H. vm_compute in H. injection H as <-. vm_compute. reflexivity. Qed.

(* ================================================================= *)
(** * The statements above on concrete inputs *)

Lemma stripe_transfer_routes_forward_set_fields_witness :
  let patched := InMemory.patch Examples.update_body Examples.stored_stripe_transfer in
  (Payout.validate_model Payout.models.StripeTransferCreate Examples.create_kwargs
     = Some Examples.create_data /\
   exists internal_request,
     Payout.validate_model Payout.stripe_transfer.StripeTransferCreate
       (Payout.dict true Examples.create_data) = Some internal_request /\
     Payout.forwards_exactly Examples.create_data internal_request) /\
  (Payout.validate_model Payout.models.StripeTransferUpdate Examples.update_kwargs
     = Some Examples.update_body /\
   ("bank_name" ∉ Payout.fields_set Examples.update_body) /\
   "stripe_failure_code" ∈ Payout.fields_set Examples.update_body /\
   Payout.values Examples.update_body !! "stripe_failure_code" = Some VNone /\
   exists internal_request,
     Payout.validate_model Payout.stripe_transfer.StripeTransferUpdate
       (Payout.dict true Examples.update_body) = Some internal_request /\
     Payout.forwards_exactly Examples.update_body internal_request /\
     ("bank_name" ∉ Payout.fields_set internal_request) /\
     Payout.dict true internal_request !! "stripe_failure_code" = Some VNone) /\
  (nth_error (InMemory.stripe_transfers Examples.transfer_store) 0
     = Some Examples.stored_stripe_transfer /\
   nth_error (InMemory.stripe_transfers
                (snd (Payout.api.UpdateStripeTransferById InMemory.repository 1
                        Examples.update_body Examples.transfer_store))) 0
     = Some patched /\
   Payout.values patched !! "bank_name"
     = Payout.values Examples.stored_stripe_transfer !! "bank_name") /\
  ("bank_name" ∈ Payout.names Payout.models.StripeTransferCreate /\
   ("bank_name" ∉ Payout.fields_set Examples.create_data) /\
   exists created,
     InMemory.stripe_transfers
       (snd (Payout.api.CreateStripeTransfer InMemory.repository Examples.create_data
               Examples.transfer_store))
     = InMemory.stripe_transfers Examples.transfer_store ++ [created] /\
     Payout.values created !! "bank_name" = Some VNone).
Proof.
  intros patched.
  pose proof (stripe_transfer_routes_forward_set_fields InMemory.repository
                Examples.transfer_store) as (Hcreate & Hupdate & Hkeep & Hadd).
  assert (Hd : Payout.validate_model Payout.models.StripeTransferCreate
                 Examples.create_kwargs = Some Examples.create_data)
    by (vm_compute; reflexivity).
  assert (Hb : Payout.validate_model Payout.models.StripeTransferUpdate
                 Examples.update_kwargs = Some Examples.update_body)
    by (vm_compute; reflexivity).
  assert (Hunset : "bank_name" ∉ Payout.fields_set Examples.update_body)
    by (apply (bool_decide_unpack _); vm_compute; exact I).
  assert (Hset : "stripe_failure_code" ∈ Payout.fields_set Examples.update_body)
    by (apply (bool_decide_unpack _); vm_compute; exact I).
  assert (Hnull : Payout.values Examples.update_body !! "stripe_failure_code" = Some VNone)
    by (vm_compute; reflexivity).
  assert (Hname : "bank_name" ∈ Payout.names Payout.models.StripeTransferCreate)
    by (apply (bool_decide_unpack _); vm_compute; exact I).
  assert (Hunset' : "bank_name" ∉ Payout.fields_set Examples.create_data)
    by (apply (bool_decide_unpack _); vm_compute; exact I).
  split; [|split; [|split]].
  - split; [exact Hd|].
    destruct (Hcreate _ _ Hd) as (req & H1 & _ & H3 & _).
    exists req. split; [exact H1 | exact H3].
  - split; [exact Hb|]. split; [exact Hunset|]. split; [exact Hset|]. split; [exact Hnull|].
    destruct (Hupdate 1 _ _ Hb) as (req & H1 & _ & H3 & _ & H4 & H5).
    exists req. split; [exact H1|]. split; [exact H3|]. split.
    + exact (proj1 (H4 "bank_name" Hunset)).
    + exact (proj2 (H5 "stripe_failure_code" Hset Hnull)).
  - assert (Hrow : nth_error (InMemory.stripe_transfers Examples.transfer_store) 0
                   = Some Examples.stored_stripe_transfer) by reflexivity.
    assert (Hrow' : nth_error (InMemory.stripe_transfers
                                 (snd (Payout.api.UpdateStripeTransferById
                                         InMemory.repository 1 Examples.update_body
                                         Examples.transfer_store))) 0
                    = Some patched) by (vm_compute; reflexivity).
    split; [exact Hrow|]. split; [exact Hrow'|].
    exact (proj2 (proj2 (Hkeep Examples.transfer_store 1 _ _ Hb)) 0%nat _ _ Hrow Hrow'
             "bank_name" Hunset).
  - split; [exact Hname|]. split; [exact Hunset'|].
    destruct (Hadd Examples.transfer_store _ _ Hd) as (created & H1 & _ & H3 & _).
    exists created. split; [exact H1|]. exact (H3 "bank_name" Hname Hunset').
Defined.

Lemma update_dispute_details_frame_witness :
  let request_set := Dispute.UpdateStripeDisputeSetInput.make 300 301 in
  let request_where := Dispute.UpdateStripeDisputeWhereInput.make "dp_1" in
  let db' := snd (Dispute.update_dispute_details request_set request_where
                    Examples.dispute_db) in
  let row_1 := Dispute.StripeDisputeDbEntity.to_row Examples.dispute_1 in
  let row_2 := Dispute.StripeDisputeDbEntity.to_row Examples.dispute_2 in
  (nth_error (Dispute.master_rows Examples.dispute_db) 0 = Some row_1 /\
   nth_error (Dispute.master_rows db') 0 = Some (Dispute.updated request_set row_1) /\
   forall c : Dispute.stripe_disputes.column,
     c <> Dispute.stripe_disputes.evidence_submitted_at ->
     c <> Dispute.stripe_disputes.updated_at ->
     Dispute.updated request_set row_1 c = row_1 c) /\
  (nth_error (Dispute.master_rows Examples.dispute_db) 1 = Some row_2 /\
   nth_error (Dispute.master_rows db') 1 = Some row_2 /\
   row_2 Dispute.stripe_disputes.stripe_dispute_id <> "dp_1").
Proof.
  intros request_set request_where db' row_1 row_2.
  pose proof (update_dispute_details_frame request_set request_where
                Examples.dispute_db) as (_ & _ & H).
  split.
  - split; [reflexivity|]. split; [reflexivity|].
    exact (proj2 (H 0%nat row_1 (Dispute.updated request_set row_1)
                    Logic.eq_refl Logic.eq_refl)).
  - split; [reflexivity|]. split; [reflexivity | discriminate].
Defined.

Lemma get_disputes_by_dd_consumer_id_spec_witness :
  exists res,
    fst (Dispute.get_disputes_by_dd_consumer_id
           (Dispute.GetCumulativeAmountInput.make [7; 9] 100 ["fraudulent"])
           Examples.dispute_db) = Dispute.Ok res /\
    In Examples.dispute_3 res /\
    Dispute.StripeDisputeDbEntity.disputed_at Examples.dispute_3 <> 100 /\
    ~ In Examples.dispute_1 res.
Proof.
  destruct (get_disputes_by_dd_consumer_id_spec [7; 9] ["fraudulent"] 100
              Examples.dispute_db) as (res & Hres & _ & Hiff & Hne).
  exists res. split; [exact Hres|].
  assert (H3 : In Examples.dispute_3 res).
  { apply Hiff. split.
    - exists (Dispute.StripeDisputeDbEntity.to_row Examples.dispute_3).
      split; [right; right; left; reflexivity | reflexivity].
    - split; [left; reflexivity|]. split; [left; reflexivity | reflexivity]. }
  split; [exact H3|]. split; [exact (Hne _ H3)|].
  intros H1. apply Hiff in H1 as (_ & _ & _ & Hlt). vm_compute in Hlt. discriminate.
Defined.

Lemma list_disputes_by_payer_id_spec_witness :
  (@nil Z = [] /\
   fst (Dispute.list_disputes_by_payer_id
          (Dispute.GetAllStripeDisputesByPayerIdInput.make []) Examples.dispute_db)
   = Dispute.Ok []) /\
  exists res,
    fst (Dispute.list_disputes_by_payer_id
           (Dispute.GetAllStripeDisputesByPayerIdInput.make [8]) Examples.dispute_db)
    = Dispute.Ok res /\
    In Examples.dispute_2 res.
Proof.
  split.
  - split; [reflexivity|].
    destruct (list_disputes_by_payer_id_spec [] Examples.dispute_db)
      as (res & Hres & _ & _ & Hnil).
    rewrite Hres. f_equal. exact (Hnil Logic.eq_refl).
  - destruct (list_disputes_by_payer_id_spec [8] Examples.dispute_db)
      as (res & Hres & _ & Hiff & _).
    exists res. split; [exact Hres|]. apply Hiff. split.
    + exists (Dispute.StripeDisputeDbEntity.to_row Examples.dispute_2).
      split; [right; left; reflexivity | reflexivity].
    + left; reflexivity.
Defined.

Lemma update_dispute_details_result_witness :
  let request_set := Dispute.UpdateStripeDisputeSetInput.make 300 301 in
  let run id :=
    Dispute.update_dispute_details request_set
      (Dispute.UpdateStripeDisputeWhereInput.make id) Examples.dispute_db in
  ((exists row, In row (Dispute.master_rows Examples.dispute_db) /\
                row Dispute.stripe_disputes.stripe_dispute_id = "dp_2") /\
   exists (i : nat) (row' : Dispute.Row),
     nth_error (Dispute.master_rows (snd (run "dp_2"))) i = Some row' /\
     fst (run "dp_2") = Dispute.Ok (Some (Dispute.StripeDisputeDbEntity.from_row row')) /\
     row' Dispute.stripe_disputes.evidence_submitted_at = Some 300 /\
     row' Dispute.stripe_disputes.updated_at = Some 301) /\
  ((forall row, In row (Dispute.master_rows Examples.dispute_db) ->
                row Dispute.stripe_disputes.stripe_dispute_id <> "dp_9") /\
   fst (run "dp_9") = Dispute.Ok None /\ snd (run "dp_9") = Examples.dispute_db).
Proof.
  intros request_set run.
  assert (Hmatch : exists row, In row (Dispute.master_rows Examples.dispute_db) /\
                               row Dispute.stripe_disputes.stripe_dispute_id = "dp_2").
  { exists (Dispute.StripeDisputeDbEntity.to_row Examples.dispute_2).
    split; [right; left; reflexivity | reflexivity]. }
  assert (Hnone : forall row, In row (Dispute.master_rows Examples.dispute_db) ->
                              row Dispute.stripe_disputes.stripe_dispute_id <> "dp_9").
  { intros row [<- | [<- | [<- | []]]]; discriminate. }
  split.
  - split; [exact Hmatch|].
    destruct (proj1 (update_dispute_details_result request_set
                       (Dispute.UpdateStripeDisputeWhereInput.make "dp_2")
                       Examples.dispute_db) Hmatch)
      as (i & row & row' & _ & _ & _ & H1 & H2 & _ & H3 & H4).
    exists i, row'. repeat split; assumption.
  - split; [exact Hnone|].
    exact (proj2 (update_dispute_details_result request_set
                    (Dispute.UpdateStripeDisputeWhereInput.make "dp_9")
                    Examples.dispute_db) Hnone).
Defined.

Lemma get_stripe_transfer_by_stripe_id_absent_is_null_witness :
  (fst (Payout.TransferRepositoryInterface.get_stripe_transfer_by_stripe_id
          InMemory.repository "unknown" Examples.transfer_store) = None /\
   fst (Payout.api.GetStripeTransferByStripeId InMemory.repository "unknown"
          Examples.transfer_store)
   = {| Payout.status_code := 200; Payout.body := Payout.Body None |}) /\
  (fst (Payout.TransferRepositoryInterface.get_stripe_transfer_by_stripe_id
          InMemory.repository "tr_1" Examples.transfer_store)
   = Some Examples.stored_stripe_transfer /\
   Payout.validate_model Payout.stripe_transfer.StripeTransfer
     (Payout.values Examples.stored_stripe_transfer) = Some Examples.stored_stripe_transfer /\
   exists wire,
     Payout.values wire = Payout.values Examples.stored_stripe_transfer /\
     fst (Payout.api.GetStripeTransferByStripeId InMemory.repository "tr_1"
            Examples.transfer_store)
     = {| Payout.status_code := 200; Payout.body := Payout.Body (Some wire) |}).
Proof.
  split.
  - split; [reflexivity|].
    exact (proj1 (proj2 (get_stripe_transfer_by_stripe_id_absent_is_null
                           InMemory.repository "unknown" Examples.transfer_store))
                 Logic.eq_refl).
  - assert (Hfound : fst (Payout.TransferRepositoryInterface.get_stripe_transfer_by_stripe_id
                            InMemory.repository "tr_1" Examples.transfer_store)
                     = Some Examples.stored_stripe_transfer) by (vm_compute; reflexivity).
    assert (Hinst : Payout.validate_model Payout.stripe_transfer.StripeTransfer
                      (Payout.values Examples.stored_stripe_transfer)
                    = Some Examples.stored_stripe_transfer) by (vm_compute; reflexivity).
    split; [exact Hfound|]. split; [exact Hinst|].
    exact (proj2 (proj2 (get_stripe_transfer_by_stripe_id_absent_is_null
                           InMemory.repository "tr_1" Examples.transfer_store))
                 _ _ Hfound Hinst).
Defined.

Lemma get_transfer_by_id_not_found_witness :
  fst (Payout.TransferRepositoryInterface.get_transfer_by_id InMemory.repository 42
         Examples.transfer_store) = None /\
  fst (Payout.api.GetTransferById InMemory.repository 42 Examples.transfer_store) =
    {| Payout.status_code := 404;
       Payout.body :=
         Payout.ErrorBody {| Payout.body_error_code := "transfer_not_found";
                             Payout.body_error_message := "transfer not found";
                             Payout.body_retryable := false |} |}.
Proof.
  split; [reflexivity|].
  apply (get_transfer_by_id_not_found InMemory.repository 42 Examples.transfer_store).
  reflexivity.
Defined.

(* ================================================================= *)
(** * Further properties of the dispute repository *)

Section MoreListFacts.
Context {A B : Type}.

Lemma filter_map_comm (f : A -> B) (q : B -> bool) (l : list A) :
  List.filter q (List.map f l) = List.map f (List.filter (fun x => q (f x)) l).
Proof.
  induction l as [|a l IH]; simpl; [reflexivity|].
  destruct (q (f a)); simpl; now rewrite IH.
Qed.

Lemma filter_filter_andb (p q : A -> bool) (l : list A) :
  List.filter q (List.filter p l) = List.filter (fun x => p x && q x) l.
Proof.
  induction l as [|a l IH]; simpl; [reflexivity|].
  destruct (p a); simpl; [destruct (q a); now rewrite IH | exact IH].
Qed.

(** With distinct keys, the first element carrying the key of [x] is [x]. *)
Lemma head_filter_key (key : A -> B) (test : B -> B -> bool) (l : list A) (x : A) :
  (forall a b, test a b = true <-> a = b) ->
  List.NoDup (List.map key l) -> In x l ->
  head (List.filter (fun y => test (key y) (key x)) l) = Some x.
Proof.
  intros Htest. induction l as [|a l IH]; intros Hnd Hin; [destruct Hin|].
  simpl in Hnd. apply NoDup_cons_iff in Hnd as [Hna Hnd]. simpl.
  destruct Hin as [-> | Hin].
  - now rewrite (proj2 (Htest (key x) (key x)) Logic.eq_refl).
  - destruct (test (key a) (key x)) eqn:E.
    + apply Htest in E. exfalso. apply Hna. rewrite E. now apply in_map.
    + now apply IH.
Qed.
End MoreListFacts.

Lemma existsb_sql_eq_VStr (x : string) (ss : list string) :
  existsb (Dispute.sql_eq (VStr x)) (List.map VStr ss) = existsb (String.eqb x) ss.
Proof. induction ss as [|s ss IH]; simpl; [reflexivity | now rewrite IH]. Qed.

Section DisputeRepositoryMore.

Import Dispute.

(** [list_disputes_by_payment_method_id] returns without error, reads the
    replica and changes nothing; an entity is in the result if and only if
    it is the entity of a replica row whose [stripe_card_id] is the given
    one. *)
Theorem list_disputes_by_payment_method_id_spec (card_id : Z) (db : Database) :
  let input := GetAllStripeDisputesByPaymentMethodIdInput.make card_id in
  exists res,
    fst (list_disputes_by_payment_method_id input db) = Ok res /\
    snd (list_disputes_by_payment_method_id input db) = db /\
    (forall e,
       In e res <->
       (exists row, In row (replica_rows db) /\ e = StripeDisputeDbEntity.from_row row) /\
       StripeDisputeDbEntity.stripe_card_id e = card_id).
Proof.
  intros input. subst input. rewrite list_disputes_by_payment_method_id_eq.
  cbn [fst snd GetAllStripeDisputesByPaymentMethodIdInput.stripe_card_id].
  eexists. split; [reflexivity|]. split; [reflexivity|].
  intros e. rewrite in_map_iff. split.
  - intros (row & <- & Hrow). apply filter_In in Hrow as [Hin Hh].
    cbn in Hh. apply Z.eqb_eq in Hh. split; [eauto | exact Hh].
  - intros ((row & Hin & ->) & Hc). exists row. split; [reflexivity|].
    apply filter_In. split; [assumption|]. cbn. now apply Z.eqb_eq.
Qed.

(** Listing by one payment method and listing by payer with the
    one-element list return, up to the order of the rows, the same
    disputes, each as many times, and leave the same store. *)
Theorem list_disputes_by_payment_method_id_as_payer (card_id : Z) (db : Database) :
  exists by_method by_payer,
    fst (list_disputes_by_payment_method_id
           (GetAllStripeDisputesByPaymentMethodIdInput.make card_id) db) = Ok by_method /\
    fst (list_disputes_by_payer_id
           (GetAllStripeDisputesByPayerIdInput.make [card_id]) db) = Ok by_payer /\
    Permutation by_method by_payer /\
    snd (list_disputes_by_payment_method_id
           (GetAllStripeDisputesByPaymentMethodIdInput.make card_id) db) =
    snd (list_disputes_by_payer_id
           (GetAllStripeDisputesByPayerIdInput.make [card_id]) db).
Proof.
  rewrite list_disputes_by_payment_method_id_eq, list_disputes_by_payer_id_eq.
  cbn [fst snd GetAllStripeDisputesByPaymentMethodIdInput.stripe_card_id
       GetAllStripeDisputesByPayerIdInput.stripe_card_ids].
  eexists. eexists. split; [reflexivity|]. split; [reflexivity|]. split; [|reflexivity].
  rewrite (List.filter_ext _
             (holds (in_ stripe_disputes.stripe_card_id (List.map VInt [card_id]))));
    [reflexivity|].
  intros row. cbn. now rewrite orb_false_r.
Qed.

(** [get_disputes_by_dd_stripe_card_id] returns without error, reads the
    replica and changes nothing; an entity is in the result if and only if
    it is the entity of a replica row for the given card, its [reason] is
    in [reasons] and its [disputed_at] is strictly after [start_time]. *)
Theorem get_disputes_by_dd_stripe_card_id_spec
    (card_id : Z) (reasons : list string) (start_time : datetime) (db : Database) :
  let input := GetCumulativeCountInput.make card_id reasons start_time in
  exists res,
    fst (get_disputes_by_dd_stripe_card_id input db) = Ok res /\
    snd (get_disputes_by_dd_stripe_card_id input db) = db /\
    (forall e,
       In e res <->
       (exists row, In row (replica_rows db) /\ e = StripeDisputeDbEntity.from_row row) /\
       StripeDisputeDbEntity.stripe_card_id e = card_id /\
       In (StripeDisputeDbEntity.reason e) reasons /\
       start_time < StripeDisputeDbEntity.disputed_at e).
Proof.
  intros input. subst input. rewrite get_disputes_by_dd_stripe_card_id_eq.
  cbn [fst snd GetCumulativeCountInput.stripe_card_id GetCumulativeCountInput.reasons
       GetCumulativeCountInput.start_time].
  eexists. split; [reflexivity|]. split; [reflexivity|].
  assert (Hh : forall row : Row,
    holds
      (and_ [eq stripe_disputes.stripe_card_id (VInt card_id);
             in_ stripe_disputes.reason (List.map VStr reasons);
             gt stripe_disputes.disputed_at (VDatetime start_time)]) row = true <->
    row stripe_disputes.stripe_card_id = card_id /\
    In (row stripe_disputes.reason) reasons /\
    start_time < row stripe_disputes.disputed_at).
  { intros row. cbn [holds forallb]. unfold cell. cbn [sql_gt sql_eq].
    rewrite !andb_true_iff, existsb_eqb_VStr, Z.ltb_lt, Z.eqb_eq. tauto. }
  intros e. rewrite in_map_iff. split.
  - intros (row & <- & Hrow). apply filter_In in Hrow as [Hin Hrow].
    apply Hh in Hrow. split; [eauto | exact Hrow].
  - intros ((row & Hin & ->) & Hc). exists row. split; [reflexivity|].
    apply filter_In. split; [assumption | now apply Hh].
Qed.

(** The filter for one card and the consumer filter with the one-element
    list of card ids return, up to the order of the rows, the same
    disputes, each as many times, and leave the same store. *)
Theorem get_disputes_by_dd_stripe_card_id_as_consumer
    (card_id : Z) (reasons : list string) (start_time : datetime) (db : Database) :
  exists by_card by_consumer,
    fst (get_disputes_by_dd_stripe_card_id
           (GetCumulativeCountInput.make card_id reasons start_time) db) = Ok by_card /\
    fst (get_disputes_by_dd_consumer_id
           (GetCumulativeAmountInput.make [card_id] start_time reasons) db)
      = Ok by_consumer /\
    Permutation by_card by_consumer /\
    snd (get_disputes_by_dd_stripe_card_id
           (GetCumulativeCountInput.make card_id reasons start_time) db) =
    snd (get_disputes_by_dd_consumer_id
           (GetCumulativeAmountInput.make [card_id] start_time reasons) db).
Proof.
  rewrite get_disputes_by_dd_stripe_card_id_eq, get_disputes_by_dd_consumer_id_eq.
  cbn [fst snd GetCumulativeCountInput.stripe_card_id GetCumulativeCountInput.reasons
       GetCumulativeCountInput.start_time GetCumulativeAmountInput.card_ids
       GetCumulativeAmountInput.reasons GetCumulativeAmountInput.start_time].
  eexists. eexists. split; [reflexivity|]. split; [reflexivity|]. split; [|reflexivity].
  match goal with |- Permutation (List.map _ (List.filter ?p _)) (List.map _ (List.filter ?q _)) =>
    rewrite (List.filter_ext p q); [reflexivity|] end.
  intros row. cbn [holds forallb List.map existsb]. now rewrite orb_false_r.
Qed.

(** The disputes the consumer filter returns are, up to the order of the
    rows and each as many times, the disputes of the listing by payer for
    the same card ids that have a listed reason and were disputed strictly
    after [start_time]. *)
Theorem get_disputes_by_dd_consumer_id_filters_payer_listing
    (card_ids : list Z) (reasons : list string) (start_time : datetime) (db : Database) :
  exists filtered listed,
    fst (get_disputes_by_dd_consumer_id
           (GetCumulativeAmountInput.make card_ids start_time reasons) db) = Ok filtered /\
    fst (list_disputes_by_payer_id
           (GetAllStripeDisputesByPayerIdInput.make card_ids) db) = Ok listed /\
    Permutation filtered
      (List.filter
         (fun e => existsb (String.eqb (StripeDisputeDbEntity.reason e)) reasons
                   && Z.ltb start_time (StripeDisputeDbEntity.disputed_at e))
         listed).
Proof.
  rewrite get_disputes_by_dd_consumer_id_eq, list_disputes_by_payer_id_eq.
  cbn [fst GetCumulativeAmountInput.card_ids GetCumulativeAmountInput.reasons
       GetCumulativeAmountInput.start_time GetAllStripeDisputesByPayerIdInput.stripe_card_ids].
  eexists. eexists. split; [reflexivity|]. split; [reflexivity|].
  rewrite filter_map_comm, filter_filter_andb.
  match goal with |- Permutation (List.map _ (List.filter ?p _)) (List.map _ (List.filter ?q _)) =>
    rewrite (List.filter_ext p q); [reflexivity|] end.
  intros row.
  cbn [holds forallb]. unfold cell. cbn [sql_gt StripeDisputeDbEntity.from_row
    StripeDisputeDbEntity.reason StripeDisputeDbEntity.disputed_at].
  rewrite existsb_sql_eq_VStr, andb_true_r. reflexivity.
Qed.

(** The listing by payer depends on the card ids as a set: two lists with
    the same members, in any order and with any repetitions, give the same
    result. *)
Theorem list_disputes_by_payer_id_ids_as_set (ids1 ids2 : list Z) (db : Database) :
  (forall x, In x ids1 <-> In x ids2) ->
  list_disputes_by_payer_id (GetAllStripeDisputesByPayerIdInput.make ids1) db =
  list_disputes_by_payer_id (GetAllStripeDisputesByPayerIdInput.make ids2) db.
Proof.
  intros Hsame. rewrite !list_disputes_by_payer_id_eq.
  cbn [GetAllStripeDisputesByPayerIdInput.stripe_card_ids].
  match goal with |- (Ok (List.map _ (List.filter ?p _)), _)
                     = (Ok (List.map _ (List.filter ?q _)), _) =>
    rewrite (List.filter_ext p q); [reflexivity|] end.
  intros row. cbn [holds]. unfold cell. apply eq_true_iff_eq.
  rewrite !existsb_eqb_VInt. apply Hsame.
Qed.

(** While the [stripe_dispute_id]s of the replica rows are distinct, the
    lookup with [dispute_id_type] unset finds every row: asked for the
    [stripe_dispute_id] of a stored row, it returns that row's entity. *)
Theorem get_dispute_by_dispute_id_finds_each_row (db : Database) (row : Row) :
  List.NoDup (List.map (fun r : Row => r stripe_disputes.stripe_dispute_id)
                       (replica_rows db)) ->
  In row (replica_rows db) ->
  fst (get_dispute_by_dispute_id
         (GetStripeDisputeByIdInput.make (row stripe_disputes.stripe_dispute_id) None) db)
  = Ok (Some (StripeDisputeDbEntity.from_row row)).
Proof.
  intros Hnd Hin. rewrite get_dispute_by_dispute_id_unset. cbn [fst].
  pose proof (head_filter_key (fun r : Row => r stripe_disputes.stripe_dispute_id)
                String.eqb (replica_rows db) row String.eqb_eq Hnd Hin) as E.
  cbv beta in E. rewrite E. reflexivity.
Qed.

(** A dispute returned by [get_dispute_by_dispute_id], with
    [dispute_id_type] unset or set, is among the disputes listed for its
    card. *)
Theorem found_dispute_is_listed_for_its_card
    (sid : string) (ty : option string) (db : Database)
    (e : StripeDisputeDbEntity.t) :
  fst (get_dispute_by_dispute_id (GetStripeDisputeByIdInput.make sid ty) db)
    = Ok (Some e) ->
  exists listed,
    fst (list_disputes_by_payment_method_id
           (GetAllStripeDisputesByPaymentMethodIdInput.make
              (StripeDisputeDbEntity.stripe_card_id e)) db) = Ok listed /\
    In e listed.
Proof.
  intros He. rewrite list_disputes_by_payment_method_id_eq. cbn [fst].
  eexists. split; [reflexivity|].
  assert (Hrow : exists row, In row (replica_rows db) /\
                             e = StripeDisputeDbEntity.from_row row).
  { destruct ty as [ty|].
    - rewrite get_dispute_by_dispute_id_set in He. cbn [fst] in He.
      destruct (read_int sid) as [n|]; [|discriminate]. injection He as He.
      destruct (head _) as [row|] eqn:Hh; [|discriminate]. injection He as <-.
      apply head_filter_Some in Hh as (l1 & l2 & Hl & _ & _).
      exists row. split; [|reflexivity]. rewrite Hl. apply in_or_app. right. now left.
    - rewrite get_dispute_by_dispute_id_unset in He. cbn [fst] in He. injection He as He.
      destruct (head _) as [row|] eqn:Hh; [|discriminate]. injection He as <-.
      apply head_filter_Some in Hh as (l1 & l2 & Hl & _ & _).
      exists row. split; [|reflexivity]. rewrite Hl. apply in_or_app. right. now left. }
  destruct Hrow as (row & Hin & ->).
  apply in_map, filter_In. split; [exact Hin|]. cbn. apply Z.eqb_refl.
Qed.

(** [update_dispute_details] keeps the keys of the master rows: the
    [stripe_dispute_id] cells and the [id] cells are the same lists before
    and after, so ids that were distinct stay distinct. *)
Theorem update_dispute_details_keeps_keys
    (request_set : UpdateStripeDisputeSetInput.t)
    (request_where : UpdateStripeDisputeWhereInput.t) (db : Database) :
  let db' := snd (update_dispute_details request_set request_where db) in
  List.map (fun r : Row => r stripe_disputes.stripe_dispute_id) (master_rows db') =
  List.map (fun r : Row => r stripe_disputes.stripe_dispute_id) (master_rows db) /\
  List.map (fun r : Row => r stripe_disputes.id) (master_rows db') =
  List.map (fun r : Row => r stripe_disputes.id) (master_rows db).
Proof.
  intros db'. subst db'. rewrite update_dispute_details_eq. cbn [snd master_rows].
  rewrite !List.map_map.
  split; apply List.map_ext; intros row; destruct (String.eqb _ _); reflexivity.
Qed.

(** The entity [update_dispute_details] returns is the entity of a master
    row with the where-id, with [evidence_submitted_at] and [updated_at]
    replaced by the set-values and every other field as stored. *)
Theorem update_dispute_details_returns_patched_entity
    (request_set : UpdateStripeDisputeSetInput.t)
    (request_where : UpdateStripeDisputeWhereInput.t) (db : Database)
    (e' : StripeDisputeDbEntity.t) :
  fst (update_dispute_details request_set request_where db) = Ok (Some e') ->
  exists row,
    In row (master_rows db) /\
    row stripe_disputes.stripe_dispute_id = UpdateStripeDisputeWhereInput.id request_where /\
    let e := StripeDisputeDbEntity.from_row row in
    e' = StripeDisputeDbEntity.make
           (StripeDisputeDbEntity.id e)
           (StripeDisputeDbEntity.stripe_dispute_id e)
           (StripeDisputeDbEntity.disputed_at e)
           (StripeDisputeDbEntity.amount e)
           (StripeDisputeDbEntity.fee e)
           (StripeDisputeDbEntity.net e)
           (StripeDisputeDbEntity.currency e)
           (StripeDisputeDbEntity.charged_at e)
           (StripeDisputeDbEntity.reason e)
           (StripeDisputeDbEntity.status e)
           (StripeDisputeDbEntity.evidence_due_by e)
           (Some (UpdateStripeDisputeSetInput.evidence_submitted_at request_set))
           (Some (UpdateStripeDisputeSetInput.updated_at request_set))
           (StripeDisputeDbEntity.stripe_card_id e)
           (StripeDisputeDbEntity.stripe_charge_id e).
Proof.
  rewrite update_dispute_details_eq. cbn [fst]. intros He. injection He as He.
  destruct (List.filter _ (master_rows db)) as [|row rest] eqn:Hf; [discriminate|].
  cbn in He. injection He as <-.
  assert (Hin : In row (List.filter
                          (fun row : Row =>
                             String.eqb (row stripe_disputes.stripe_dispute_id)
                                        (UpdateStripeDisputeWhereInput.id request_where))
                          (master_rows db))) by (rewrite Hf; now left).
  apply filter_In in Hin as [Hin Hp]. apply String.eqb_eq in Hp.
  exists row. split; [exact Hin|]. split; [exact Hp | reflexivity].
Qed.

(** Of two updates with the same where-id the later one wins: after the
    first, the second returns the same entity and leaves the same rows as
    it would have without the first. In particular an update repeated
    changes nothing more. *)
Theorem update_dispute_details_last_write_wins
    (set1 set2 : UpdateStripeDisputeSetInput.t)
    (request_where : UpdateStripeDisputeWhereInput.t) (db : Database) :
  let db1 := snd (update_dispute_details set1 request_where db) in
  fst (update_dispute_details set2 request_where db1) =
  fst (update_dispute_details set2 request_where db) /\
  List.map StripeDisputeDbEntity.from_row
    (master_rows (snd (update_dispute_details set2 request_where db1))) =
  List.map StripeDisputeDbEntity.from_row
    (master_rows (snd (update_dispute_details set2 request_where db))) /\
  replica_rows (snd (update_dispute_details set2 request_where db1)) =
  replica_rows (snd (update_dispute_details set2 request_where db)).
Proof.
  intros db1. subst db1. rewrite !update_dispute_details_eq.
  cbn [fst snd master_rows replica_rows].
  set (wid := UpdateStripeDisputeWhereInput.id request_where).
  set (p := fun row : Row => String.eqb (row stripe_disputes.stripe_dispute_id) wid).
  set (g1 := fun row : Row => if p row then updated set1 row else row).
  assert (Hp : forall row, p (g1 row) = p row).
  { intros row. unfold g1, p.
    destruct (String.eqb (row stripe_disputes.stripe_dispute_id) wid) eqn:E; exact E. }
  assert (Hu : forall row, StripeDisputeDbEntity.from_row (updated set2 (g1 row)) =
                           StripeDisputeDbEntity.from_row (updated set2 row)).
  { intros row. unfold g1. destruct (p row); reflexivity. }
  split; [|split; [|reflexivity]].
  - change (List.map (fun row : Row => if p row then updated set1 row else row)) with (List.map g1).
    rewrite filter_map_comm. rewrite (List.filter_ext _ p Hp).
    destruct (List.filter p (master_rows db)) as [|row rest]; [reflexivity|].
    cbn [List.map head option_map]. f_equal. f_equal. apply Hu.
  - set (g2 := fun row : Row => if p row then updated set2 row else row).
    assert (Hg : forall row, StripeDisputeDbEntity.from_row (g2 (g1 row)) =
                             StripeDisputeDbEntity.from_row (g2 row)).
    { intros row. unfold g2. rewrite Hp. destruct (p row) eqn:E; [apply Hu|].
      unfold g1. now rewrite E. }
    rewrite !List.map_map. apply List.map_ext. intros row. exact (Hg row).
Qed.

End DisputeRepositoryMore.

(* ================================================================= *)
(** * Further properties of the routes *)

Section MoreRouteProperties.
Import Payout.
Context {S : Type}.
Variable repository : TransferRepositoryInterface.t S.

Lemma to_wire_all_instances (internals : list Model) :
  Forall (fun internal =>
            exists kwargs,
              validate_model stripe_transfer.StripeTransfer kwargs = Some internal)
         internals ->
  exists wires, api.to_wire_all internals = Return wires /\
                List.map values wires = List.map values internals.
Proof.
  induction internals as [|m l IH]; intros H.
  - exists []. split; reflexivity.
  - apply Forall_cons in H as [[kw Hm] Hl].
    destruct (to_wire_instance _ _ Hm) as (w & Hw & Hv).
    destruct (IH Hl) as (ws & Hws & Hvs).
    exists (w :: ws). cbn [api.to_wire_all]. rewrite Hw, Hws. cbn [List.map].
    split; [reflexivity | now rewrite Hv, Hvs].
Qed.

Lemma to_wire_not_raise (internal : Model) (e : PaymentException) :
  api.to_wire internal <> Raise e.
Proof. unfold api.to_wire. destruct (validate_model _ _); discriminate. Qed.

(** The lookup of a transfer answers 404 exactly when the repository finds
    nothing; a transfer it finds is sent with status 200 as the repository
    returned it. The store is as the repository's call left it. *)
Theorem get_transfer_by_id_found_or_404 (transfer_id : Z) (st : S) :
  let found := fst (TransferRepositoryInterface.get_transfer_by_id repository transfer_id st) in
  let response := fst (api.GetTransferById repository transfer_id st) in
  (status_code response = HTTP_404_NOT_FOUND <-> found = None) /\
  (forall transfer, found = Some transfer ->
                    response = {| status_code := 200; body := Body transfer |}) /\
  snd (api.GetTransferById repository transfer_id st) =
  snd (TransferRepositoryInterface.get_transfer_by_id repository transfer_id st).
Proof.
  intros found response. subst found response.
  unfold api.GetTransferById, api.on_route, api.get_transfer_by_id.
  destruct (TransferRepositoryInterface.get_transfer_by_id repository transfer_id st)
    as [[transfer|] st']; cbn [fst snd respond].
  - split; [split; discriminate|]. split; [now intros ? [= <-] | reflexivity].
  - split; [split; reflexivity|]. split; [discriminate | reflexivity].
Qed.

(** The update of a transfer passes the id and the body to the repository
    as they are. When the repository reports no such transfer the answer
    is 404 with [error_code] [transfer_not_found]; otherwise it is 200 with
    the updated transfer as the repository returned it. *)
Theorem update_transfer_by_id_found_or_404 (transfer_id : Z) (data : Model) (st : S) :
  let updated :=
    fst (TransferRepositoryInterface.update_transfer_by_id repository transfer_id data st) in
  let response := fst (api.UpdateTransferById repository transfer_id data st) in
  (updated = None ->
   response = {| status_code := 404;
                 body := ErrorBody {| body_error_code := "transfer_not_found";
                                      body_error_message := "transfer not found";
                                      body_retryable := false |} |}) /\
  (forall transfer, updated = Some transfer ->
                    response = {| status_code := 200; body := Body transfer |}) /\
  snd (api.UpdateTransferById repository transfer_id data st) =
  snd (TransferRepositoryInterface.update_transfer_by_id repository transfer_id data st).
Proof.
  intros updated response. subst updated response.
  unfold api.UpdateTransferById, api.on_route, api.update_transfer_by_id.
  destruct (TransferRepositoryInterface.update_transfer_by_id repository transfer_id data st)
    as [[transfer|] st']; cbn [fst snd respond].
  - split; [discriminate|]. split; [now intros ? [= <-] | reflexivity].
  - split; [reflexivity|]. split; [discriminate | reflexivity].
Qed.

(** The lookup of a stripe transfer by its own id answers 404, with
    [error_code] [stripe_transfer_not_found], exactly when the repository
    finds nothing; a stored record it finds is sent with status 200, value
    for value. *)
Theorem get_stripe_transfer_by_id_found_or_404 (stripe_transfer_id : Z) (st : S) :
  let found :=
    fst (TransferRepositoryInterface.get_stripe_transfer_by_id
           repository stripe_transfer_id st) in
  let response := fst (api.GetStripeTransferById repository stripe_transfer_id st) in
  (status_code response = HTTP_404_NOT_FOUND <-> found = None) /\
  (found = None ->
   response = {| status_code := 404;
                 body := ErrorBody {| body_error_code := "stripe_transfer_not_found";
                                      body_error_message := "stripe transfer not found";
                                      body_retryable := false |} |}) /\
  (forall internal kwargs,
     found = Some internal ->
     validate_model stripe_transfer.StripeTransfer kwargs = Some internal ->
     exists wire, values wire = values internal /\
                  response = {| status_code := 200; body := Body wire |}).
Proof.
  intros found response. subst found response.
  unfold api.GetStripeTransferById, api.on_route, api.get_stripe_transfer_by_id.
  destruct (TransferRepositoryInterface.get_stripe_transfer_by_id
              repository stripe_transfer_id st) as [[internal|] st']; cbn [fst snd].
  - split; [|split].
    + split; [|discriminate]. unfold api.to_wire.
      destruct (validate_model _ _); cbn; discriminate.
    + discriminate.
    + intros internal' kwargs [= <-] Hk.
      destruct (to_wire_instance _ _ Hk) as (wire & Hw & Hv).
      exists wire. rewrite Hw. split; [exact Hv | reflexivity].
  - split; [split; reflexivity|]. split; [reflexivity | discriminate].
Qed.

(** The update of a stripe transfer, given a body of the wire model,
    answers 404 with [error_code] [stripe_transfer_not_found] when the
    repository reports no such record, and 200 with the updated record,
    value for value, when it returns a stored one. *)
Theorem update_stripe_transfer_by_id_found_or_404
    (stripe_transfer_id : Z) (kwargs : gmap string value) (body_ : Model) (st : S) :
  validate_model models.StripeTransferUpdate kwargs = Some body_ ->
  let updated :=
    fst (TransferRepositoryInterface.update_stripe_transfer_by_id
           repository stripe_transfer_id body_ st) in
  let response := fst (api.UpdateStripeTransferById repository stripe_transfer_id body_ st) in
  (updated = None ->
   response = {| status_code := 404;
                 body := ErrorBody {| body_error_code := "stripe_transfer_not_found";
                                      body_error_message := "stripe transfer not found";
                                      body_retryable := false |} |}) /\
  (forall internal kwargs',
     updated = Some internal ->
     validate_model stripe_transfer.StripeTransfer kwargs' = Some internal ->
     exists wire, values wire = values internal /\
                  response = {| status_code := 200; body := Body wire |}) /\
  snd (api.UpdateStripeTransferById repository stripe_transfer_id body_ st) =
  snd (TransferRepositoryInterface.update_stripe_transfer_by_id
         repository stripe_transfer_id body_ st).
Proof.
  intros Hb updated response. subst updated response.
  unfold api.UpdateStripeTransferById, api.on_route, api.update_stripe_transfer_by_id,
    stripe_transfer.StripeTransferUpdate.
  rewrite (validate_model_dict_skip_defaults _ _ _ Hb).
  destruct (TransferRepositoryInterface.update_stripe_transfer_by_id
              repository stripe_transfer_id body_ st) as [[internal|] st']; cbn [fst snd].
  - split; [discriminate|]. split; [|reflexivity].
    intros internal' kwargs' [= <-] Hk.
    destruct (to_wire_instance _ _ Hk) as (wire & Hw & Hv).
    exists wire. rewrite Hw. split; [exact Hv | reflexivity].
  - split; [reflexivity|]. split; [discriminate | reflexivity].
Qed.

(** The creation of a stripe transfer, given a body of the wire model,
    answers 201 with the record the repository created, value for value,
    and leaves the store as the repository's create call left it. *)
Theorem create_stripe_transfer_created
    (kwargs kwargs' : gmap string value) (data : Model) (st : S) :
  validate_model models.StripeTransferCreate kwargs = Some data ->
  validate_model stripe_transfer.StripeTransfer kwargs' =
    Some (fst (TransferRepositoryInterface.create_stripe_transfer repository data st)) ->
  exists wire,
    values wire =
    values (fst (TransferRepositoryInterface.create_stripe_transfer repository data st)) /\
    api.CreateStripeTransfer repository data st =
    ({| status_code := 201; body := Body wire |},
     snd (TransferRepositoryInterface.create_stripe_transfer repository data st)).
Proof.
  intros Hd Hc.
  unfold api.CreateStripeTransfer, api.on_route, api.create_stripe_transfer,
    stripe_transfer.StripeTransferCreate.
  rewrite (validate_model_dict_skip_defaults _ _ _ Hd).
  destruct (TransferRepositoryInterface.create_stripe_transfer repository data st)
    as [internal st']. cbn [fst snd] in *.
  destruct (to_wire_instance _ _ Hc) as (wire & Hw & Hv).
  exists wire. rewrite Hw. split; [exact Hv | reflexivity].
Qed.

(** The listing by transfer id never answers 404: when the repository
    returns stored records, none included, the answer is 200 with as many
    records, in the same order, value for value. *)
Theorem get_stripe_transfer_by_transfer_id_lists_all (transfer_id : Z) (st : S) :
  let internals :=
    fst (TransferRepositoryInterface.get_stripe_transfers_by_transfer_id
           repository transfer_id st) in
  let response := fst (api.GetStripeTransfersByTransferId repository transfer_id st) in
  status_code response <> HTTP_404_NOT_FOUND /\
  (internals = [] -> response = {| status_code := 200; body := Body [] |}) /\
  (Forall (fun internal =>
             exists kwargs,
               validate_model stripe_transfer.StripeTransfer kwargs = Some internal)
          internals ->
   exists wires,
     response = {| status_code := 200; body := Body wires |} /\
     List.map values wires = List.map values internals).
Proof.
  intros internals response. subst internals response.
  unfold api.GetStripeTransfersByTransferId, api.on_route,
    api.get_stripe_transfer_by_transfer_id.
  destruct (TransferRepositoryInterface.get_stripe_transfers_by_transfer_id
              repository transfer_id st) as [internals st']. cbn [fst snd].
  split; [|split].
  - assert (H : forall e, api.to_wire_all internals <> Raise e).
    { induction internals as [|m l IH]; intros e; [discriminate|].
      cbn [api.to_wire_all]. pose proof (to_wire_not_raise m) as Hm.
      destruct (api.to_wire m) as [w|e'|]; [|now destruct (Hm e')|discriminate].
      destruct (api.to_wire_all l) as [ws|e'|];
        [discriminate|now destruct (IH e')|discriminate]. }
    destruct (api.to_wire_all internals) as [ws|e|]; cbn; [discriminate| |discriminate].
    now destruct (H e).
  - intros ->. reflexivity.
  - intros Hall. destruct (to_wire_all_instances internals Hall) as (wires & Hw & Hv).
    exists wires. rewrite Hw. split; [reflexivity | exact Hv].
Qed.

(** The empty body is a valid body of the stripe transfer update. For a
    body on which no field is set, the update route passes the repository a
    request on which no field is set: its [dict(skip_defaults=True)] is
    empty. *)
Theorem update_body_without_fields_forwards_nothing
    (stripe_transfer_id : Z) (kwargs : gmap string value) (body_ : Model) (st : S) :
  validate_model models.StripeTransferUpdate kwargs = Some body_ ->
  fields_set body_ = ∅ ->
  is_Some (validate_model models.StripeTransferUpdate ∅) /\
  exists internal_request,
    fields_set internal_request = ∅ /\
    dict true internal_request = ∅ /\
    api.update_stripe_transfer_by_id repository stripe_transfer_id body_ st =
      (match fst (TransferRepositoryInterface.update_stripe_transfer_by_id
                    repository stripe_transfer_id internal_request st) with
       | None => Raise api._stripe_transfer_not_found
       | Some internal_stripe_transfer => api.to_wire internal_stripe_transfer
       end,
       snd (TransferRepositoryInterface.update_stripe_transfer_by_id
              repository stripe_transfer_id internal_request st)).
Proof.
  intros Hb Hempty. split.
  - apply validate_model_is_Some. apply Forall_forall. intros f Hf.
    rewrite lookup_empty. revert f Hf. apply Forall_forall. repeat constructor.
  - exists body_. split; [exact Hempty|]. split.
    + apply map_eq. intros k. rewrite lookup_empty. unfold dict.
      apply map_lookup_filter_None. right. intros v _ Hin. cbn in Hin.
      rewrite Hempty in Hin. now apply not_elem_of_empty in Hin.
    + unfold api.update_stripe_transfer_by_id, stripe_transfer.StripeTransferUpdate.
      rewrite (validate_model_dict_skip_defaults _ _ _ Hb).
      destruct (TransferRepositoryInterface.update_stripe_transfer_by_id
                  repository stripe_transfer_id body_ st) as [[r|] st']; reflexivity.
Qed.

End MoreRouteProperties.

(* ================================================================= *)
(** * The further properties on concrete inputs *)

Lemma list_disputes_by_payer_id_ids_as_set_witness :
  (forall x : Z, In x [7; 8; 7] <-> In x [8; 7]) /\
  Dispute.list_disputes_by_payer_id
    (Dispute.GetAllStripeDisputesByPayerIdInput.make [7; 8; 7]) Examples.dispute_db =
  Dispute.list_disputes_by_payer_id
    (Dispute.GetAllStripeDisputesByPayerIdInput.make [8; 7]) Examples.dispute_db.
Proof.
  assert (H : forall x : Z, In x [7; 8; 7] <-> In x [8; 7]) by (intros x; simpl; tauto).
  split; [exact H|].
  exact (list_disputes_by_payer_id_ids_as_set _ _ Examples.dispute_db H).
Defined.

Lemma get_dispute_by_dispute_id_finds_each_row_witness :
  let row := Dispute.StripeDisputeDbEntity.to_row Examples.dispute_2 in
  List.NoDup (List.map (fun r : Dispute.Row => r Dispute.stripe_disputes.stripe_dispute_id)
                       (Dispute.replica_rows Examples.dispute_db)) /\
  In row (Dispute.replica_rows Examples.dispute_db) /\
  fst (Dispute.get_dispute_by_dispute_id
         (Dispute.GetStripeDisputeByIdInput.make "dp_2" None) Examples.dispute_db)
  = Dispute.Ok (Some Examples.dispute_2).
Proof.
  intros row.
  assert (Hnd : List.NoDup
                  (List.map (fun r : Dispute.Row =>
                               r Dispute.stripe_disputes.stripe_dispute_id)
                            (Dispute.replica_rows Examples.dispute_db))).
  { repeat (apply List.NoDup_cons; [simpl; intuition discriminate|]).
    apply List.NoDup_nil. }
  assert (Hin : In row (Dispute.replica_rows Examples.dispute_db))
    by (right; left; reflexivity).
  split; [exact Hnd|]. split; [exact Hin|].
  exact (get_dispute_by_dispute_id_finds_each_row Examples.dispute_db row Hnd Hin).
Defined.

Lemma found_dispute_is_listed_for_its_card_witness :
  (fst (Dispute.get_dispute_by_dispute_id
          (Dispute.GetStripeDisputeByIdInput.make "dp_3" None) Examples.dispute_db)
   = Dispute.Ok (Some Examples.dispute_3) /\
   exists listed,
     fst (Dispute.list_disputes_by_payment_method_id
            (Dispute.GetAllStripeDisputesByPaymentMethodIdInput.make 7)
            Examples.dispute_db) = Dispute.Ok listed /\
     In Examples.dispute_3 listed) /\
  (fst (Dispute.get_dispute_by_dispute_id
          (Dispute.GetStripeDisputeByIdInput.make "2" (Some "dd_stripe_dispute_id"))
          Examples.dispute_db)
   = Dispute.Ok (Some Examples.dispute_2) /\
   exists listed,
     fst (Dispute.list_disputes_by_payment_method_id
            (Dispute.GetAllStripeDisputesByPaymentMethodIdInput.make 8)
            Examples.dispute_db) = Dispute.Ok listed /\
     In Examples.dispute_2 listed).
Proof.
  split.
  - split; [reflexivity|].
    exact (found_dispute_is_listed_for_its_card "dp_3" None
             Examples.dispute_db Examples.dispute_3 Logic.eq_refl).
  - split; [reflexivity|].
    exact (found_dispute_is_listed_for_its_card "2" (Some "dd_stripe_dispute_id")
             Examples.dispute_db Examples.dispute_2 Logic.eq_refl).
Defined.

Lemma update_dispute_details_returns_patched_entity_witness :
  let request_set := Dispute.UpdateStripeDisputeSetInput.make 300 301 in
  let request_where := Dispute.UpdateStripeDisputeWhereInput.make "dp_2" in
  fst (Dispute.update_dispute_details request_set request_where Examples.dispute_db)
    = Dispute.Ok (Some Examples.dispute_2_updated) /\
  exists row,
    In row (Dispute.master_rows Examples.dispute_db) /\
    row Dispute.stripe_disputes.stripe_dispute_id = "dp_2" /\
    Dispute.StripeDisputeDbEntity.amount Examples.dispute_2_updated =
    Dispute.StripeDisputeDbEntity.amount (Dispute.StripeDisputeDbEntity.from_row row).
Proof.
  intros request_set request_where. split; [reflexivity|].
  destruct (update_dispute_details_returns_patched_entity
              request_set request_where Examples.dispute_db Examples.dispute_2_updated
              Logic.eq_refl) as (row & Hin & Hid & He).
  exists row. split; [exact Hin|]. split; [exact Hid|].
  cbv zeta in He. rewrite He. reflexivity.
Defined.

Lemma get_transfer_by_id_found_or_404_witness :
  fst (Payout.TransferRepositoryInterface.get_transfer_by_id InMemory.repository 5
         Examples.transfer_store_with_transfer) = Some Examples.stored_transfer /\
  fst (Payout.api.GetTransferById InMemory.repository 5
         Examples.transfer_store_with_transfer)
  = {| Payout.status_code := 200; Payout.body := Payout.Body Examples.stored_transfer |}.
Proof.
  assert (H : fst (Payout.TransferRepositoryInterface.get_transfer_by_id
                     InMemory.repository 5 Examples.transfer_store_with_transfer)
              = Some Examples.stored_transfer) by (vm_compute; reflexivity).
  split; [exact H|].
  exact (proj1 (proj2 (get_transfer_by_id_found_or_404 InMemory.repository 5
                         Examples.transfer_store_with_transfer)) _ H).
Defined.

Lemma update_transfer_by_id_found_or_404_witness :
  fst (Payout.TransferRepositoryInterface.update_transfer_by_id InMemory.repository 42
         Examples.stored_transfer Examples.transfer_store_with_transfer) = None /\
  fst (Payout.api.UpdateTransferById InMemory.repository 42 Examples.stored_transfer
         Examples.transfer_store_with_transfer)
  = {| Payout.status_code := 404;
       Payout.body :=
         Payout.ErrorBody {| Payout.body_error_code := "transfer_not_found";
                             Payout.body_error_message := "transfer not found";
                             Payout.body_retryable := false |} |}.
Proof.
  assert (H : fst (Payout.TransferRepositoryInterface.update_transfer_by_id
                     InMemory.repository 42 Examples.stored_transfer
                     Examples.transfer_store_with_transfer) = None)
    by (vm_compute; reflexivity).
  split; [exact H|].
  exact (proj1 (update_transfer_by_id_found_or_404 InMemory.repository 42
                  Examples.stored_transfer Examples.transfer_store_with_transfer) H).
Defined.

Lemma get_stripe_transfer_by_id_found_or_404_witness :
  (fst (Payout.TransferRepositoryInterface.get_stripe_transfer_by_id InMemory.repository 9
          Examples.transfer_store) = None /\
   Payout.status_code
     (fst (Payout.api.GetStripeTransferById InMemory.repository 9 Examples.transfer_store))
   = 404) /\
  (fst (Payout.TransferRepositoryInterface.get_stripe_transfer_by_id InMemory.repository 1
          Examples.transfer_store) = Some Examples.stored_stripe_transfer /\
   Payout.validate_model Payout.stripe_transfer.StripeTransfer
     (Payout.values Examples.stored_stripe_transfer) = Some Examples.stored_stripe_transfer /\
   exists wire,
     Payout.values wire = Payout.values Examples.stored_stripe_transfer /\
     fst (Payout.api.GetStripeTransferById InMemory.repository 1 Examples.transfer_store)
     = {| Payout.status_code := 200; Payout.body := Payout.Body wire |}).
Proof.
  split.
  - assert (H : fst (Payout.TransferRepositoryInterface.get_stripe_transfer_by_id
                       InMemory.repository 9 Examples.transfer_store) = None)
      by (vm_compute; reflexivity).
    split; [exact H|].
    exact (proj2 (proj1 (get_stripe_transfer_by_id_found_or_404 InMemory.repository 9
                           Examples.transfer_store)) H).
  - assert (Hfound : fst (Payout.TransferRepositoryInterface.get_stripe_transfer_by_id
                            InMemory.repository 1 Examples.transfer_store)
                     = Some Examples.stored_stripe_transfer) by (vm_compute; reflexivity).
    assert (Hinst : Payout.validate_model Payout.stripe_transfer.StripeTransfer
                      (Payout.values Examples.stored_stripe_transfer)
                    = Some Examples.stored_stripe_transfer) by (vm_compute; reflexivity).
    split; [exact Hfound|]. split; [exact Hinst|].
    exact (proj2 (proj2 (get_stripe_transfer_by_id_found_or_404 InMemory.repository 1
                           Examples.transfer_store)) _ _ Hfound Hinst).
Defined.

Lemma update_stripe_transfer_by_id_found_or_404_witness :
  Payout.validate_model Payout.models.StripeTransferUpdate Examples.update_kwargs
    = Some Examples.update_body /\
  fst (Payout.TransferRepositoryInterface.update_stripe_transfer_by_id
         InMemory.repository 9 Examples.update_body Examples.transfer_store) = None /\
  fst (Payout.api.UpdateStripeTransferById InMemory.repository 9 Examples.update_body
         Examples.transfer_store)
  = {| Payout.status_code := 404;
       Payout.body :=
         Payout.ErrorBody {| Payout.body_error_code := "stripe_transfer_not_found";
                             Payout.body_error_message := "stripe transfer not found";
                             Payout.body_retryable := false |} |}.
Proof.
  assert (Hb : Payout.validate_model Payout.models.StripeTransferUpdate
                 Examples.update_kwargs = Some Examples.update_body)
    by (vm_compute; reflexivity).
  assert (Hnone : fst (Payout.TransferRepositoryInterface.update_stripe_transfer_by_id
                         InMemory.repository 9 Examples.update_body
                         Examples.transfer_store) = None)
    by (vm_compute; reflexivity).
  split; [exact Hb|]. split; [exact Hnone|].
  exact (proj1 (update_stripe_transfer_by_id_found_or_404 InMemory.repository 9
                  Examples.update_kwargs Examples.update_body Examples.transfer_store Hb)
               Hnone).
Defined.

Lemma create_stripe_transfer_created_witness :
  let created :=
    fst (Payout.TransferRepositoryInterface.create_stripe_transfer
           InMemory.repository Examples.create_data Examples.transfer_store) in
  Payout.validate_model Payout.models.StripeTransferCreate Examples.create_kwargs
    = Some Examples.create_data /\
  Payout.validate_model Payout.stripe_transfer.StripeTransfer (Payout.values created)
    = Some created /\
  exists wire,
    Payout.values wire = Payout.values created /\
    fst (Payout.api.CreateStripeTransfer InMemory.repository Examples.create_data
           Examples.transfer_store)
    = {| Payout.status_code := 201; Payout.body := Payout.Body wire |}.
Proof.
  intros created.
  assert (Hd : Payout.validate_model Payout.models.StripeTransferCreate
                 Examples.create_kwargs = Some Examples.create_data)
    by (vm_compute; reflexivity).
  assert (Hc : Payout.validate_model Payout.stripe_transfer.StripeTransfer
                 (Payout.values created) = Some created)
    by (vm_compute; reflexivity).
  split; [exact Hd|]. split; [exact Hc|].
  destruct (create_stripe_transfer_created InMemory.repository _ _ _
              Examples.transfer_store Hd Hc) as (wire & Hv & Hr).
  exists wire. split; [exact Hv|]. rewrite Hr. reflexivity.
Defined.

Lemma get_stripe_transfer_by_transfer_id_lists_all_witness :
  let internals :=
    fst (Payout.TransferRepositoryInterface.get_stripe_transfers_by_transfer_id
           InMemory.repository 10 Examples.transfer_store) in
  internals = [Examples.stored_stripe_transfer] /\
  (exists wires,
     fst (Payout.api.GetStripeTransfersByTransferId InMemory.repository 10
            Examples.transfer_store)
     = {| Payout.status_code := 200; Payout.body := Payout.Body wires |} /\
     List.map Payout.values wires = List.map Payout.values internals) /\
  fst (Payout.TransferRepositoryInterface.get_stripe_transfers_by_transfer_id
         InMemory.repository 11 Examples.transfer_store) = [] /\
  fst (Payout.api.GetStripeTransfersByTransferId InMemory.repository 11
         Examples.transfer_store)
  = {| Payout.status_code := 200; Payout.body := Payout.Body [] |}.
Proof.
  intros internals.
  assert (Hi : internals = [Examples.stored_stripe_transfer]) by (vm_compute; reflexivity).
  split; [exact Hi|]. split.
  - apply (proj2 (proj2 (get_stripe_transfer_by_transfer_id_lists_all InMemory.repository 10
                           Examples.transfer_store))).
    fold internals. rewrite Hi. constructor; [|constructor].
    exists (Payout.values Examples.stored_stripe_transfer). vm_compute. reflexivity.
  - assert (He : fst (Payout.TransferRepositoryInterface.get_stripe_transfers_by_transfer_id
                        InMemory.repository 11 Examples.transfer_store) = [])
      by (vm_compute; reflexivity).
    split; [exact He|].
    exact (proj1 (proj2 (get_stripe_transfer_by_transfer_id_lists_all InMemory.repository 11
                           Examples.transfer_store)) He).
Defined.

Lemma update_body_without_fields_forwards_nothing_witness :
  Payout.validate_model Payout.models.StripeTransferUpdate Examples.empty_kwargs
    = Some Examples.empty_body /\
  Payout.fields_set Examples.empty_body = ∅ /\
  exists internal_request,
    Payout.dict true internal_request = ∅ /\
    Payout.api.update_stripe_transfer_by_id InMemory.repository 1 Examples.empty_body
      Examples.transfer_store =
    (match fst (Payout.TransferRepositoryInterface.update_stripe_transfer_by_id
                  InMemory.repository 1 internal_request Examples.transfer_store) with
     | None => Payout.Raise Payout.api._stripe_transfer_not_found
     | Some internal_stripe_transfer => Payout.api.to_wire internal_stripe_transfer
     end,
     snd (Payout.TransferRepositoryInterface.update_stripe_transfer_by_id
            InMemory.repository 1 internal_request Examples.transfer_store)).
Proof.
  assert (Hb : Payout.validate_model Payout.models.StripeTransferUpdate
                 Examples.empty_kwargs = Some Examples.empty_body)
    by (vm_compute; reflexivity).
  assert (He : Payout.fields_set Examples.empty_body = ∅) by (vm_compute; reflexivity).
  split; [exact Hb|]. split; [exact He|].
  destruct (proj2 (update_body_without_fields_forwards_nothing InMemory.repository 1
                     Examples.empty_kwargs Examples.empty_body Examples.transfer_store
                     Hb He)) as (req & _ & Hd & Hr).
  exists req. split; [exact Hd | exact Hr].
Defined.
